(** * toolkit-rag: document classification, inclusion filtering and indexing

    A shallow embedding of the indexing pipeline of the RAG client:
    - [src/rag_client/processor.py]           (class [DocumentProcessor])
    - [src/rag_client/document_processor.py]  (class [SuperClaudeDocumentProcessor])
    - [src/rag_client/client.py]              (class [RAGClient])
    - [src/rag_client/rag_client.py]          (class [SuperClaudeRAGClient])

    Python [str] values are modelled as [string] (ASCII text), Python [int]
    as [nat] or [Z], [Optional] as [option], [dict] as [gmap], [set] used
    for membership as [gset], sets that are only iterated by [any(...)] as
    lists.  The file system and the network are an explicit [World] of
    oracles; an exception that the code catches is an outcome of the oracle,
    an exception that escapes is a [Raised] result.  What happens while a
    coroutine is suspended in [await asyncio.gather] is a step relation of
    the event loop. *)

From Stdlib Require Import String Ascii ZArith Lia Bool.
From stdpp Require Import base gmap strings list.

Local Open Scope string_scope.
Local Open Scope list_scope.
Local Open Scope nat_scope.

(** ** Python string primitives *)

Module PyStr.

(** [c.lower()] for one ASCII character. *)
Definition lower_ascii (c : ascii) : ascii :=
  let n := nat_of_ascii c in
  if (65 <=? n) && (n <=? 90) then ascii_of_nat (n + 32) else c.

(** [s.lower()] *)
Fixpoint lower (s : string) : string :=
  match s with
  | EmptyString => EmptyString
  | String c s' => String (lower_ascii c) (lower s')
  end.

(** [s.startswith(p)] *)
Fixpoint startswith (p s : string) : bool :=
  match p, s with
  | EmptyString, _ => true
  | String a p', String b s' => Ascii.eqb a b && startswith p' s'
  | String _ _, EmptyString => false
  end.

(** [t in s] for strings: substring containment. *)
Fixpoint contains (t s : string) : bool :=
  startswith t s ||
  match s with
  | EmptyString => false
  | String _ s' => contains t s'
  end.

(** [any(t in s for t in ts)] *)
Definition any_in (ts : list string) (s : string) : bool :=
  existsb (fun t => contains t s) ts.

(** [x in xs] for a set of strings given by its elements. *)
Definition mem (x : string) (xs : list string) : bool :=
  existsb (String.eqb x) xs.

(** [s.split(sep)] for a one-character separator. *)
Fixpoint split_aux (sep : ascii) (cur : string) (s : string) : list string :=
  match s with
  | EmptyString => [cur]
  | String c s' =>
      if Ascii.eqb c sep then cur :: split_aux sep EmptyString s'
      else split_aux sep (cur +:+ String c EmptyString) s'
  end.

Definition split (sep : ascii) (s : string) : list string :=
  split_aux sep EmptyString s.

(** [sep.join(xs)] *)
Fixpoint join (sep : string) (xs : list string) : string :=
  match xs with
  | [] => EmptyString
  | [x] => x
  | x :: rest => x +:+ sep +:+ join sep rest
  end.

(** [s.rfind(c)], [None] standing for Python's [-1]. *)
Fixpoint rfind (c : ascii) (s : string) : option nat :=
  match s with
  | EmptyString => None
  | String a s' =>
      match rfind c s' with
      | Some i => Some (S i)
      | None => if Ascii.eqb a c then Some 0 else None
      end
  end.

(** [s[i:]] *)
Fixpoint drop (i : nat) (s : string) : string :=
  match i, s with
  | O, _ => s
  | S i', String _ s' => drop i' s'
  | S _, EmptyString => EmptyString
  end.

End PyStr.

(** ** [pathlib] (POSIX flavour), as far as the pipeline uses it *)

Module Pathlib.

(** A parsed path: the root (the empty string, [/] or [//]) and the
    components after it. *)
Record PurePath : Type := mkPath { root : string; tail : list string }.

Definition keep_component (c : string) : bool :=
  negb (String.eqb c "") && negb (String.eqb c ".").

(** [Path(s)]: split at [/], drop empty and [.] components. *)
Definition Path (s : string) : PurePath :=
  {| root :=
       if PyStr.startswith "/" s then
         if PyStr.startswith "//" s && negb (PyStr.startswith "///" s)
         then "//" else "/"
       else "";
     tail := List.filter keep_component (PyStr.split "/" s) |}.

(** [path.parts] *)
Definition parts (p : PurePath) : list string :=
  if String.eqb (root p) "" then tail p else root p :: tail p.

(** [path.name] *)
Definition name (p : PurePath) : string := List.last (tail p) "".

(** [str(path)] *)
Definition str (p : PurePath) : string :=
  match tail p with
  | [] => if String.eqb (root p) "" then "." else root p
  | _ => root p +:+ PyStr.join "/" (tail p)
  end.

(** [path.suffix]: the part of the name from its last dot, when that dot
    is neither the first nor the last character of the name ([rfind] and
    the test [0 < i < len(name) - 1] of [pathlib]). *)
Definition suffix (p : PurePath) : string :=
  let nm := name p in
  match PyStr.rfind "." nm with
  | Some i =>
      if (0 <? i) && (i <? String.length nm - 1)
      then PyStr.drop i nm else ""
  | None => ""
  end.

End Pathlib.

Import Pathlib.

(** ** Data shared by both processors *)

(** [class DocumentType(Enum)] *)
Inductive DocumentType : Type := CODE | DOCUMENTATION | CONFIGURATION | TEST | OTHER.

(** [doc_type.value] *)
Definition value (t : DocumentType) : string :=
  match t with
  | CODE => "code"
  | DOCUMENTATION => "documentation"
  | CONFIGURATION => "configuration"
  | TEST => "test"
  | OTHER => "other"
  end.

Definition DocumentType_eqb (a b : DocumentType) : bool :=
  match a, b with
  | CODE, CODE | DOCUMENTATION, DOCUMENTATION | CONFIGURATION, CONFIGURATION
  | TEST, TEST | OTHER, OTHER => true
  | _, _ => false
  end.

(** [@dataclass class DocumentMetadata].  The modification time is a
    float in the source; it is only copied, so it is carried as an opaque
    number. *)
Record DocumentMetadata : Type := mkMeta {
  file_path : string;
  file_type : DocumentType;
  language : option string;
  size : Z;
  last_modified : Z;
  project_id : string
}.

(** [os.stat_result], the two fields that are read. *)
Record stat_result : Type := mkStat { st_size : Z; st_mtime : Z }.

(** What an HTTP request comes to: a response with a status code, or an
    exception ([aiohttp.ClientError], [asyncio.TimeoutError], ...). *)
Inductive http_outcome : Type :=
  | Response (status : Z)
  | RequestRaised.

Inductive exception : Type :=
  | ValueError (msg : string)
  | OSError (msg : string).

(** A call either raises or returns. *)
Inductive outcome (A : Type) : Type :=
  | Raised (e : exception)
  | Returned (a : A).
Arguments Raised {A} e.
Arguments Returned {A} a.

(** The outside world the pipeline talks to.  [w_stat] is the [stat()] made
    while files are enumerated and filtered, [w_stat_later] the one that
    [DocumentProcessor.process_project] makes again when it builds the
    metadata; [None] is an [OSError].  [w_resolve] is [Path.resolve()],
    which can raise.  [w_exists] is [Path.exists()]: it returns [False] for
    a path that is not there, and raises the [OSError] of the underlying
    [stat()] for every other failure (a name that is too long, a directory
    that may not be searched). *)
Record World : Type := mkWorld {
  w_exists : PurePath -> outcome bool;
  w_resolve : PurePath -> outcome PurePath;
  w_glob : PurePath -> string -> list PurePath;
  w_is_file : PurePath -> bool;
  w_stat : PurePath -> option stat_result;
  w_stat_later : PurePath -> option stat_result;
  w_open : string -> bool;
  w_post : string -> http_outcome;
  w_health : http_outcome
}.

(** The [stats] dictionary that an indexing run fills in. *)
Record IndexingStats : Type := mkStats {
  total_files : nat;
  successful : nat;
  failed : nat;
  by_type : gmap string nat
}.

(** The dictionaries that [process_project] and [RAGClient.index_project]
    return, by the keys they carry. *)
Inductive ResultDict : Type :=
  | ErrorDict (error : string)
  | StatsDict (stats : IndexingStats) (message : option string)
  | ErrorCountsDict (error : string) (total succ fail : nat).

(** ** [processor.py]: class [DocumentProcessor] *)

Module DocumentProcessor.

Definition code_extensions : list string :=
  [".py"; ".js"; ".ts"; ".tsx"; ".jsx"; ".java"; ".cpp"; ".c"; ".h";
   ".cs"; ".php"; ".rb"; ".go"; ".rs"; ".swift"; ".kt"; ".scala";
   ".r"; ".m"; ".mm"; ".sql"; ".sh"; ".bash"; ".ps1"; ".lua"; ".pl";
   ".dart"; ".vue"; ".svelte"; ".elm"; ".clj"; ".cljs"; ".hs"; ".ml";
   ".fs"; ".vb"; ".pas"; ".asm"; ".s"; ".scss"; ".sass"; ".less"; ".css"].

Definition doc_extensions : list string :=
  [".md"; ".txt"; ".rst"; ".adoc"; ".org"; ".tex"; ".rtf";
   ".pdf"; ".doc"; ".docx"; ".odt"; ".html"; ".htm"; ".xml"].

Definition config_extensions : list string :=
  [".json"; ".yaml"; ".yml"; ".toml"; ".ini"; ".cfg"; ".conf";
   ".env"; ".properties"; ".plist"; ".config"].

Definition test_patterns : list string :=
  ["test_"; "_test"; ".test."; ".spec."; "_spec"; "tests/";
   "test/"; "__test__"; "__tests__"].

Definition language_map : gmap string string :=
  list_to_map
    [(".py", "python"); (".js", "javascript"); (".ts", "typescript");
     (".java", "java"); (".cpp", "cpp"); (".c", "c"); (".h", "c");
     (".cs", "csharp"); (".php", "php"); (".rb", "ruby"); (".go", "go");
     (".rs", "rust"); (".swift", "swift"); (".kt", "kotlin"); (".scala", "scala");
     (".sql", "sql"); (".sh", "bash"); (".bash", "bash"); (".ps1", "powershell");
     (".html", "html"); (".css", "css"); (".scss", "scss"); (".sass", "sass");
     (".vue", "vue"); (".svelte", "svelte"); (".dart", "dart")].

Definition _classify_document (file_path : PurePath) : DocumentType :=
  let file_str := PyStr.lower (str file_path) in
  let extension := PyStr.lower (suffix file_path) in
  if PyStr.any_in test_patterns file_str then TEST
  else if PyStr.mem extension code_extensions then CODE
  else if PyStr.mem extension doc_extensions then DOCUMENTATION
  else if PyStr.mem extension config_extensions then CONFIGURATION
  else OTHER.

Definition _detect_language (file_path : PurePath) : option string :=
  let extension := PyStr.lower (suffix file_path) in
  language_map !! extension.

Definition exclusions : list string :=
  [".git"; "__pycache__"; "node_modules"; ".pytest_cache";
   ".mypy_cache"; ".coverage"; "dist"; "build"; ".venv";
   "venv"; ".env"; "env"; ".DS_Store"; "Thumbs.db"].

(** [10 * 1024 * 1024] *)
Definition size_limit : Z := (10 * 1024 * 1024)%Z.

Definition _should_include_file (w : World) (file_path : PurePath)
    (include_code include_docs include_configs include_tests : bool) : bool :=
  let doc_type := _classify_document file_path in
  if PyStr.any_in exclusions (str file_path) then false
  else
    match w_stat w file_path with
    | None => false
    | Some st =>
        if (st_size st >? size_limit)%Z then false
        else if DocumentType_eqb doc_type CODE && negb include_code then false
        else if DocumentType_eqb doc_type DOCUMENTATION && negb include_docs then false
        else if DocumentType_eqb doc_type CONFIGURATION && negb include_configs then false
        else if DocumentType_eqb doc_type TEST && negb include_tests then false
        else true
    end.

(** Every failure inside [_upload_document] is caught there and turned
    into [False]; only status 200 is a success.  What the server answers is
    an oracle of the uploaded path. *)
Definition _upload_document (w : World) (file_path : PurePath)
    (metadata : DocumentMetadata) : bool :=
  if w_open w (str file_path) then
    match w_post w (str file_path) with
    | Response status => (status =? 200)%Z
    | RequestRaised => false
    end
  else false.

(** [stats["by_type"][type_name] += 1], the key created at 0 first. *)
Definition bump (type_name : string) (m : gmap string nat) : gmap string nat :=
  <[type_name := default 0 (m !! type_name) + 1]> m.

(** One turn of the loop [for file_path in files_to_process]. *)
Definition process_file (w : World) (pid : string)
    (stats : IndexingStats) (file_path : PurePath) : IndexingStats :=
  let doc_type := _classify_document file_path in
  let language := _detect_language file_path in
  match w_stat_later w file_path with
  | None =>
      (* except Exception *)
      mkStats (total_files stats) (successful stats) (failed stats + 1) (by_type stats)
  | Some file_stat =>
      let metadata :=
        mkMeta (str file_path) doc_type language
               (st_size file_stat) (st_mtime file_stat) pid in
      let success := _upload_document w file_path metadata in
      let stats1 :=
        if success
        then mkStats (total_files stats) (successful stats + 1) (failed stats) (by_type stats)
        else mkStats (total_files stats) (successful stats) (failed stats + 1) (by_type stats) in
      mkStats (total_files stats1) (successful stats1) (failed stats1)
              (bump (value doc_type) (by_type stats1))
  end.

(** The metadata that [process_file] builds for a file, when [stat()]
    succeeds. *)
Definition metadata_of (w : World) (pid : string) (file_path : PurePath)
    : option DocumentMetadata :=
  match w_stat_later w file_path with
  | None => None
  | Some file_stat =>
      Some (mkMeta (str file_path) (_classify_document file_path)
                   (_detect_language file_path)
                   (st_size file_stat) (st_mtime file_stat) pid)
  end.

(** The files that the walk selects. *)
Definition collect_files (w : World) (project_dir : PurePath)
    (include_code include_docs include_configs include_tests recursive : bool)
    : list PurePath :=
  let pattern := if recursive then "**/*" else "*" in
  List.filter
    (fun file_path =>
       w_is_file w file_path &&
       _should_include_file w file_path
         include_code include_docs include_configs include_tests)
    (w_glob w project_dir pattern).

Definition run_files (w : World) (pid : string) (files_to_process : list PurePath)
    : IndexingStats :=
  fold_left (process_file w pid) files_to_process
    (mkStats (length files_to_process) 0 0 ∅).

Definition process_project (w : World) (pid : string) (project_path : string)
    (include_code include_docs include_configs include_tests recursive : bool)
    : outcome ResultDict :=
  match w_resolve w (Path project_path) with
  | Raised e => Raised e
  | Returned project_dir =>
      match w_exists w project_dir with
      | Raised e => Raised e
      | Returned false =>
          Returned (ErrorDict ("Project path does not exist: " +:+ project_path))
      | Returned true =>
          let files_to_process :=
            collect_files w project_dir
              include_code include_docs include_configs include_tests recursive in
          match files_to_process with
          | [] => Returned (StatsDict (mkStats 0 0 0 ∅) (Some "No files found to process"))
          | _ => Returned (StatsDict (run_files w pid files_to_process) None)
          end
      end
  end.

End DocumentProcessor.

(** ** [client.py]: class [RAGClient] *)

Module RAGClient.

Definition exception_text (e : exception) : string :=
  match e with
  | ValueError msg => msg
  | OSError msg => msg
  end.

(** [index_project]: whatever [process_project] raises is turned into an
    error dictionary. *)
Definition index_project (w : World) (pid : string) (project_path : string)
    (include_code include_docs include_configs include_tests recursive : bool)
    : ResultDict :=
  match DocumentProcessor.process_project w pid project_path
          include_code include_docs include_configs include_tests recursive with
  | Returned stats => stats
  | Raised e => ErrorCountsDict (exception_text e) 0 0 1
  end.

Definition health_check (w : World) : bool :=
  match w_health w with
  | Response status => (status =? 200)%Z
  | RequestRaised => false
  end.

End RAGClient.

(** ** [document_processor.py]: class [SuperClaudeDocumentProcessor] *)

(** The pair [(file_path, metadata)] kept in [files_to_process]. *)
Definition WorkItem : Type := string * DocumentMetadata.

(** What [asyncio.gather(..., return_exceptions=True)] hands back for one
    task: the exception it raised, or the value it returned. *)
Inductive gather_result : Type :=
  | GException
  | GValue (b : bool).

Module SuperClaudeDocumentProcessor.

Definition code_extensions : list string :=
  [".py"; ".js"; ".ts"; ".tsx"; ".jsx"; ".java"; ".cpp"; ".c"; ".h";
   ".cs"; ".php"; ".rb"; ".go"; ".rs"; ".swift"; ".kt"; ".scala";
   ".r"; ".m"; ".mm"; ".sql"; ".sh"; ".bash"; ".ps1"; ".lua"; ".pl"].

Definition doc_extensions : list string :=
  [".md"; ".txt"; ".rst"; ".adoc"; ".tex"; ".doc"; ".docx"; ".pdf"].

Definition config_extensions : list string :=
  [".json"; ".yaml"; ".yml"; ".toml"; ".ini"; ".conf"; ".cfg";
   ".env"; ".properties"; ".xml"; ".plist"].

Definition test_patterns : list string :=
  ["test_"; "_test"; ".test."; ".spec."; "tests/"; "test/";
   "__tests__/"; "spec/"; "cypress/"; "e2e/"].

Definition _get_file_type (file_path : string) : DocumentType :=
  let path := Path file_path in
  let extension := PyStr.lower (suffix path) in
  let path_str := PyStr.lower (str path) in
  if PyStr.any_in test_patterns path_str then TEST
  else if PyStr.mem extension code_extensions then CODE
  else if PyStr.mem extension doc_extensions then DOCUMENTATION
  else if PyStr.mem extension config_extensions then CONFIGURATION
  else OTHER.

Definition extension_map : gmap string string :=
  list_to_map
    [(".py", "python"); (".js", "javascript"); (".ts", "typescript");
     (".tsx", "typescript"); (".jsx", "javascript"); (".java", "java");
     (".cpp", "cpp"); (".c", "c"); (".h", "c"); (".cs", "csharp");
     (".php", "php"); (".rb", "ruby"); (".go", "go"); (".rs", "rust");
     (".swift", "swift"); (".kt", "kotlin"); (".scala", "scala");
     (".r", "r"); (".m", "objective-c"); (".sql", "sql");
     (".sh", "bash"); (".bash", "bash"); (".ps1", "powershell")].

Definition _get_language (file_path : string) : option string :=
  let extension := PyStr.lower (suffix (Path file_path)) in
  extension_map !! extension.

Definition allowed_dotfiles : list string :=
  [".gitignore"; ".env.example"; ".dockerignore"].

Definition skip_dirs : list string :=
  ["node_modules"; "dist"; "build"; "__pycache__"; ".git";
   "venv"; "env"; ".venv"; "target"; "bin"; "obj"; "out"].

Definition _should_process_file (file_path : string)
    (include_patterns : gset string) : bool :=
  let path := Path file_path in
  if existsb (PyStr.startswith ".") (parts path)
     && negb (PyStr.mem (name path) allowed_dotfiles)
  then false
  else if PyStr.any_in skip_dirs (str path) then false
  else if bool_decide ("all" ∈ include_patterns) then true
  else
    let file_type := _get_file_type (str path) in
    (bool_decide ("code" ∈ include_patterns) && DocumentType_eqb file_type CODE)
    || (bool_decide ("docs" ∈ include_patterns) && DocumentType_eqb file_type DOCUMENTATION)
    || (bool_decide ("configs" ∈ include_patterns) && DocumentType_eqb file_type CONFIGURATION)
    || (bool_decide ("tests" ∈ include_patterns) && DocumentType_eqb file_type TEST).

(** As in [processor.py], every failure is caught inside and becomes
    [False]. *)
Definition _upload_document (w : World) (file_path : string)
    (metadata : DocumentMetadata) : bool :=
  if w_open w file_path then
    match w_post w file_path with
    | Response status => (status =? 200)%Z
    | RequestRaised => false
    end
  else false.

(** The body of [for file_path in project_path.glob(pattern)]: a file
    whose [stat()] raises is logged and left out. *)
Definition enumerate_file (w : World) (pid : string)
    (include_patterns : gset string) (file_path : PurePath) : list WorkItem :=
  if w_is_file w file_path && _should_process_file (str file_path) include_patterns then
    match w_stat w file_path with
    | Some st =>
        [(str file_path,
          mkMeta (str file_path) (_get_file_type (str file_path))
                 (_get_language (str file_path))
                 (st_size st) (st_mtime st) pid)]
    | None => []
    end
  else [].

Definition collect_files (w : World) (pid : string) (project_path : PurePath)
    (include_patterns : gset string) (recursive : bool) : list WorkItem :=
  let pattern := if recursive then "**/*" else "*" in
  flat_map (enumerate_file w pid include_patterns) (w_glob w project_path pattern).

(** [range(0, stop, step)] for [step >= 1]; [stop] turns are enough. *)
Fixpoint range_from (fuel i stop step : nat) : list nat :=
  match fuel with
  | O => []
  | S fuel' => if i <? stop then i :: range_from fuel' (i + step) stop step else []
  end.

(** [range(0, n, batch_size)] for any Python integer step: zero raises,
    a negative step gives the empty range. *)
Definition batch_starts (n : nat) (batch_size : Z) : outcome (list nat) :=
  match batch_size with
  | Z0 => Raised (ValueError "range() arg 3 must not be zero")
  | Zneg _ => Returned []
  | Zpos b => Returned (range_from n 0 n (Pos.to_nat b))
  end.

(** [files_to_process[i:i + batch_size]] *)
Definition slice {A : Type} (l : list A) (i j : nat) : list A :=
  take (j - i) (drop i l).

(** The batches of the loop, in the order they are issued. *)
Definition batches {A : Type} (l : list A) (b : nat) : list (list A) :=
  map (fun i => slice l i (i + b)) (range_from (length l) 0 (length l) b).

(** [await asyncio.gather] over the tasks of a batch, with
    [return_exceptions=True]. *)
Definition gather (w : World) (batch : list WorkItem) : list gather_result :=
  map (fun item => GValue (_upload_document w (fst item) (snd item))) batch.

(** The body of [for (file_path, metadata), result in zip(batch, results)]. *)
Definition record_result (stats : IndexingStats)
    (entry : WorkItem * gather_result) : IndexingStats :=
  let '((_, metadata), result) := entry in
  match result with
  | GException =>
      mkStats (total_files stats) (successful stats) (failed stats + 1) (by_type stats)
  | GValue true =>
      let file_type := value (file_type metadata) in
      mkStats (total_files stats) (successful stats + 1) (failed stats)
              (<[file_type := default 0 (by_type stats !! file_type) + 1]> (by_type stats))
  | GValue false =>
      mkStats (total_files stats) (successful stats) (failed stats + 1) (by_type stats)
  end.

(** One batch: all its uploads are gathered, then the results are
    counted.  The second component logs the batches issued so far. *)
Definition run_batch (w : World)
    (st : IndexingStats * list (list WorkItem)) (batch : list WorkItem)
    : IndexingStats * list (list WorkItem) :=
  let results := gather w batch in
  (fold_left record_result (zip batch results) (fst st), snd st ++ [batch]).

(** The upload loop over a materialised worklist. *)
Definition upload_batches (w : World) (files_to_process : list WorkItem)
    (batch_size : Z) : outcome (IndexingStats * list (list WorkItem)) :=
  let stats := mkStats (length files_to_process) 0 0 ∅ in
  match batch_starts (length files_to_process) batch_size with
  | Raised e => Raised e
  | Returned starts =>
      Returned
        (fold_left (run_batch w)
           (map (fun i => slice files_to_process i (i + Z.to_nat batch_size)) starts)
           (stats, []))
  end.

Definition index_project (w : World) (pid : string) (project_path : string)
    (include_patterns : gset string) (recursive : bool) (batch_size : Z)
    : outcome IndexingStats :=
  let project_path' := Path project_path in
  match w_exists w project_path' with
  | Raised e => Raised e
  | Returned false =>
      Raised (ValueError ("Project path does not exist: " +:+ str project_path'))
  | Returned true =>
      let files_to_process :=
        collect_files w pid project_path' include_patterns recursive in
      match upload_batches w files_to_process batch_size with
      | Raised e => Raised e
      | Returned (stats, _) => Returned stats
      end
  end.

Definition health_check (w : World) : bool :=
  match w_health w with
  | Response status => (status =? 200)%Z
  | RequestRaised => false
  end.

(** *** The upload loop on the event loop

    [index_project] is a coroutine.  In each turn of its [for] loop it
    slices a batch off the worklist, makes one [_upload_document] coroutine
    per item and awaits [asyncio.gather] of them.  [gather] makes a task of
    each coroutine; the event loop starts the tasks and lets them settle in
    an order that depends on the network, and resumes [index_project] when
    the last one has settled.  Only then are the results counted and the
    next turn taken.  Nothing else runs on the loop.

    An event is the start or the settling of the task at position [j] of
    batch number [k]; a settling comes with the result that [gather]
    collects for the task. *)

Inductive event : Type :=
  | EvStart (k j : nat) (file_path : string)
  | EvSettle (k j : nat) (file_path : string) (result : gather_result).

(** The batch an event belongs to. *)
Definition event_batch (e : event) : nat :=
  match e with
  | EvStart k _ _ => k
  | EvSettle k _ _ _ => k
  end.

(** Where [index_project] stands: at the head of its [for] loop, or
    suspended in [await asyncio.gather] of a batch, with the positions of
    the tasks that have not started and of those that run. *)
Inductive control : Type :=
  | AtLoopHead
  | AwaitingGather (batch : list WorkItem) (created running : list nat).

(** The state of the run: the number of the batch at hand, what is left of
    [range(0, len(files_to_process), batch_size)], the control point, and
    the statistics with the log of the batches issued. *)
Record LoopState : Type := mkLoop {
  ls_index : nat;
  ls_starts : list nat;
  ls_control : control;
  ls_acc : IndexingStats * list (list WorkItem)
}.

(** One move of the event loop, with the events it makes. *)
Inductive loop_step (w : World) (files_to_process : list WorkItem) (batch_size : nat)
    : LoopState -> list event -> LoopState -> Prop :=
  | step_issue (k i : nat) (starts : list nat) acc :
      (* batch = files_to_process[i:i + batch_size]; tasks = [...];
         await asyncio.gather(...) *)
      let batch := slice files_to_process i (i + batch_size) in
      loop_step w files_to_process batch_size
        (mkLoop k (i :: starts) AtLoopHead acc)
        []
        (mkLoop k starts (AwaitingGather batch (seq 0 (length batch)) []) acc)
  | step_start (k j : nat) (starts : list nat) batch (c1 c2 running : list nat) acc
               (item : WorkItem) :
      (* the event loop starts a task that was made *)
      batch !! j = Some item ->
      loop_step w files_to_process batch_size
        (mkLoop k starts (AwaitingGather batch (c1 ++ j :: c2) running) acc)
        [EvStart k j (fst item)]
        (mkLoop k starts (AwaitingGather batch (c1 ++ c2) (j :: running)) acc)
  | step_settle (k j : nat) (starts : list nat) batch (created r1 r2 : list nat) acc
                (item : WorkItem) (result : gather_result) :
      (* a running task returns; gather keeps its result *)
      batch !! j = Some item ->
      gather w batch !! j = Some result ->
      loop_step w files_to_process batch_size
        (mkLoop k starts (AwaitingGather batch created (r1 ++ j :: r2)) acc)
        [EvSettle k j (fst item) result]
        (mkLoop k starts (AwaitingGather batch created (r1 ++ r2)) acc)
  | step_resume (k : nat) (starts : list nat) batch acc :
      (* every task has settled: gather returns, the results are counted *)
      loop_step w files_to_process batch_size
        (mkLoop k starts (AwaitingGather batch [] []) acc)
        []
        (mkLoop (S k) starts AtLoopHead (run_batch w acc batch)).

(** Several moves, with the events in the order they are made. *)
Inductive loop_steps (w : World) (files_to_process : list WorkItem) (batch_size : nat)
    : LoopState -> list event -> LoopState -> Prop :=
  | steps_refl (s : LoopState) :
      loop_steps w files_to_process batch_size s [] s
  | steps_step (s1 s2 s3 : LoopState) (t1 t2 : list event) :
      loop_step w files_to_process batch_size s1 t1 s2 ->
      loop_steps w files_to_process batch_size s2 t2 s3 ->
      loop_steps w files_to_process batch_size s1 (t1 ++ t2) s3.

(** The tasks that a state waits for are tasks of its batch. *)
Definition loop_valid (s : LoopState) : Prop :=
  match ls_control s with
  | AtLoopHead => True
  | AwaitingGather batch created running =>
      Forall (fun j => j < length batch) (created ++ running)
  end.

(** The loop is left when the range is used up. *)
Definition loop_end (s : LoopState) : Prop :=
  ls_starts s = [] /\ ls_control s = AtLoopHead.

(** A run of the upload loop of [index_project] over a worklist: the events
    it makes and the statistics and log it ends with. *)
Definition upload_run (w : World) (files_to_process : list WorkItem) (batch_size : Z)
    (tr : list event) (result : IndexingStats * list (list WorkItem)) : Prop :=
  exists (starts : list nat) (s : LoopState),
    batch_starts (length files_to_process) batch_size = Returned starts
    /\ loop_steps w files_to_process (Z.to_nat batch_size)
         (mkLoop 0 starts AtLoopHead (mkStats (length files_to_process) 0 0 ∅, []))
         tr s
    /\ loop_end s
    /\ ls_acc s = result.

(** The events of the task at position [j] of batch [k]: its start, and its
    settling with what [_upload_document] returns for its item. *)
Definition settle_events (w : World) (k : nat) (batch : list WorkItem) (j : nat)
    : list event :=
  match batch !! j with
  | Some item =>
      [EvSettle k j (fst item) (GValue (_upload_document w (fst item) (snd item)))]
  | None => []
  end.

Definition task_events (w : World) (k : nat) (batch : list WorkItem) (j : nat)
    : list event :=
  match batch !! j with
  | Some item => EvStart k j (fst item) :: settle_events w k batch j
  | None => []
  end.

(** The events of the tasks of batch [k], and of the batches from number
    [k] on. *)
Definition batch_events (w : World) (k : nat) (batch : list WorkItem) : list event :=
  flat_map (task_events w k batch) (seq 0 (length batch)).

Fixpoint run_events (w : World) (k : nat) (bs : list (list WorkItem)) : list event :=
  match bs with
  | [] => []
  | batch :: rest => batch_events w k batch ++ run_events w (S k) rest
  end.

(** What a state has still to do: the events to come and the statistics it
    will end with. *)
Definition pending_events (w : World) (files_to_process : list WorkItem)
    (batch_size : nat) (s : LoopState) : list event :=
  let rest := map (fun i => slice files_to_process i (i + batch_size)) (ls_starts s) in
  match ls_control s with
  | AtLoopHead => run_events w (ls_index s) rest
  | AwaitingGather batch created running =>
      flat_map (task_events w (ls_index s) batch) created
      ++ flat_map (settle_events w (ls_index s) batch) running
      ++ run_events w (S (ls_index s)) rest
  end.

Definition final_acc (w : World) (files_to_process : list WorkItem)
    (batch_size : nat) (s : LoopState) : IndexingStats * list (list WorkItem) :=
  let rest := map (fun i => slice files_to_process i (i + batch_size)) (ls_starts s) in
  fold_left (run_batch w) rest
    match ls_control s with
    | AtLoopHead => ls_acc s
    | AwaitingGather batch _ _ => run_batch w (ls_acc s) batch
    end.

End SuperClaudeDocumentProcessor.

(** ** [rag_client.py]: class [SuperClaudeRAGClient] *)

Module SuperClaudeRAGClient.

(** The set of patterns that [index_project] builds from its flags. *)
Definition include_patterns_of
    (include_code include_docs include_configs include_tests : bool) : gset string :=
  let s0 : gset string := ∅ in
  let s1 := if include_code then s0 ∪ {["code"]} else s0 in
  let s2 := if include_docs then s1 ∪ {["docs"]} else s1 in
  let s3 := if include_configs then s2 ∪ {["configs"]} else s2 in
  let s4 := if include_tests then s3 ∪ {["tests"]} else s3 in
  if bool_decide (s4 = ∅) then s4 ∪ {["all"]} else s4.

Definition index_project (w : World) (pid : string) (project_path : string)
    (include_code include_docs include_configs include_tests recursive : bool)
    : outcome IndexingStats :=
  SuperClaudeDocumentProcessor.index_project w pid project_path
    (include_patterns_of include_code include_docs include_configs include_tests)
    recursive 10%Z.

End SuperClaudeRAGClient.

(** ** Sample worlds *)

(** A world in which every path exists and is an empty regular file, every
    upload is accepted and the service is healthy. *)
Definition quiet_world : World :=
  mkWorld (fun _ => Returned true) (fun p => Returned p) (fun _ _ => []) (fun _ => true)
          (fun _ => Some (mkStat 0 0)) (fun _ => Some (mkStat 0 0))
          (fun _ => true) (fun _ => Response 200) (Response 200).

(** A world whose one file, [proj/big.py], has 20 MiB. *)
Definition big_file_world : World :=
  mkWorld (fun _ => Returned true) (fun p => Returned p)
          (fun _ _ => [Path "proj/big.py"]) (fun _ => true)
          (fun _ => Some (mkStat 20971520 0)) (fun _ => Some (mkStat 20971520 0))
          (fun _ => true) (fun _ => Response 200) (Response 200).

(** A world in which no path exists. *)
Definition empty_world : World :=
  mkWorld (fun _ => Returned false) (fun p => Returned p) (fun _ _ => []) (fun _ => false)
          (fun _ => None) (fun _ => None) (fun _ => false)
          (fun _ => RequestRaised) RequestRaised.

(** A world like [quiet_world] whose only file is [proj/Makefile]. *)
Definition makefile_world : World :=
  mkWorld (fun _ => Returned true) (fun p => Returned p)
          (fun _ _ => [Path "proj/Makefile"]) (fun _ => true)
          (fun _ => Some (mkStat 0 0)) (fun _ => Some (mkStat 0 0))
          (fun _ => true) (fun _ => Response 200) (Response 200).

(** A world whose health endpoint answers [204 No Content]. *)
Definition no_content_world : World :=
  mkWorld (fun _ => Returned true) (fun p => Returned p) (fun _ _ => []) (fun _ => true)
          (fun _ => None) (fun _ => None) (fun _ => true)
          (fun _ => Response 200) (Response 204).

(** A world like [quiet_world] whose server rejects every upload with
    status 500. *)
Definition rejecting_world : World :=
  mkWorld (fun _ => Returned true) (fun p => Returned p) (fun _ _ => []) (fun _ => true)
          (fun _ => Some (mkStat 0 0)) (fun _ => Some (mkStat 0 0))
          (fun _ => true) (fun _ => Response 500) (Response 500).

(** A root of 300 letters: no file system entry has a name that long. *)
Definition long_root : string :=
  String "/" (string_of_list_ascii (List.repeat "a"%char 300)).

(** A world in which nothing is there and a name of more than 255 bytes
    makes [stat()] fail with [ENAMETOOLONG], which [exists()] does not take
    for an absence: it raises.  [resolve()], which is not strict, returns
    the path. *)
Definition long_name_world : World :=
  mkWorld (fun p => if 255 <? String.length (name p)
                    then Raised (OSError "[Errno 36] File name too long")
                    else Returned false)
          (fun p => Returned p) (fun _ _ => []) (fun _ => false)
          (fun _ => None) (fun _ => None) (fun _ => false)
          (fun _ => RequestRaised) RequestRaised.

(** ** [processor.py]: [DocumentProcessor.process_single_file] *)

Module SingleFile.

(** The one [stat()] of this function is the one that builds the metadata;
    every exception after the existence test is caught and gives [False].
    The existence test itself is outside the [try]: what it raises
    escapes. *)
Definition process_single_file (w : World) (pid : string) (file_path : string)
    : outcome bool :=
  let file_path_obj := Path file_path in
  match w_exists w file_path_obj with
  | Raised e => Raised e
  | Returned false => Returned false
  | Returned true =>
      let doc_type := DocumentProcessor._classify_document file_path_obj in
      let language := DocumentProcessor._detect_language file_path_obj in
      match w_stat_later w file_path_obj with
      | Some file_stat =>
          let metadata :=
            mkMeta (str file_path_obj) doc_type language
                   (st_size file_stat) (st_mtime file_stat) pid in
          Returned (DocumentProcessor._upload_document w file_path_obj metadata)
      | None => Returned false
      end
  end.

End SingleFile.

(** ** JSON values and the search service *)

(** What [response.json()] gives.  Numbers are only passed on; they are
    carried as integers. *)
#[warnings="-register-all"]
Inductive json : Type :=
  | JNull
  | JBool (b : bool)
  | JNum (n : Z)
  | JStr (s : string)
  | JList (l : list json)
  | JDict (m : gmap string json).

(** Python's truth value of a JSON value. *)
Definition truthy (j : json) : bool :=
  match j with
  | JNull => false
  | JBool b => b
  | JNum n => negb (n =? 0)%Z
  | JStr s => negb (String.eqb s "")
  | JList l => match l with [] => false | _ => true end
  | JDict m => negb (bool_decide (m = ∅))
  end.

(** The answer to a request whose body is read with [response.json()]:
    a status and, when the body is JSON, its value; or an exception of the
    request. *)
Inductive http_body : Type :=
  | Body (status : Z) (content : option json)
  | Failed.

(** The endpoints of the search service. *)
Record Service : Type := mkService {
  post_search : gmap string json -> http_body;
  get_ids : http_body;
  post_query_multiple : gmap string json -> http_body
}.

(** The exceptions that escape from the search functions. *)
Inductive py_error : Type :=
  | TypeError
  | AttributeError
  | ClientError
  | ContentTypeError.

Inductive raised (A : Type) : Type :=
  | Raise (e : py_error)
  | Value (a : A).
Arguments Raise {A} e.
Arguments Value {A} a.

(** [class SearchMode(Enum)] *)
Inductive SearchMode : Type := SEMANTIC | HYBRID | KEYWORD.

Definition mode_value (m : SearchMode) : string :=
  match m with
  | SEMANTIC => "semantic"
  | HYBRID => "hybrid"
  | KEYWORD => "keyword"
  end.

(** [x or default] for an optional string: [None] and the empty string
    are both false. *)
Definition str_or (x : option string) (default : string) : string :=
  match x with
  | Some s => if String.eqb s "" then default else s
  | None => default
  end.

(** The truth value of an optional list. *)
Definition nonempty {A : Type} (x : option (list A)) : bool :=
  match x with
  | Some (_ :: _) => true
  | _ => false
  end.

Definition json_strings (l : list string) : json := JList (map JStr l).

(** [xs[:limit]] for any integer [limit]. *)
Definition slice_to {A : Type} (xs : list A) (limit : Z) : list A :=
  if (0 <=? limit)%Z then take (Z.to_nat limit) xs
  else take (length xs - Z.to_nat (- limit)) xs.

(** ** [client.py]: [RAGClient.search] and [RAGClient.extract_patterns] *)

Module ClientSearch.

(** The request body that [search] builds. *)
Definition search_data (config_project_id : string) (query : string) (mode : SearchMode)
    (limit : Z) (file_types languages : option (list string))
    (project_id : option string) : gmap string json :=
  let search_project_id := str_or project_id config_project_id in
  let d0 : gmap string json :=
    <["mode" := JStr (mode_value mode)]>
      (<["limit" := JNum limit]>
         (<["project_id" := JStr search_project_id]>
            (<["query" := JStr query]> ∅))) in
  let d1 := if nonempty file_types
            then <["file_types" := json_strings (default [] file_types)]> d0 else d0 in
  if nonempty languages
  then <["languages" := json_strings (default [] languages)]> d1 else d1.

(** [search]: the body of a 200 answer, and the empty list for every other
    status and for every exception, which is caught. *)
Definition search (svc : Service) (config_project_id : string) (query : string)
    (mode : SearchMode) (limit : Z) (file_types languages : option (list string))
    (project_id : option string) : json :=
  match post_search svc
          (search_data config_project_id query mode limit file_types languages project_id) with
  | Body status content =>
      if (status =? 200)%Z then
        match content with
        | Some j => j
        | None => JList []
        end
      else JList []
  | Failed => JList []
  end.

(** [for result in results]: what iterating over a JSON value yields. *)
Definition iterate (results : json) : raised (list json) :=
  match results with
  | JList l => Value l
  | JDict m => Value (map (fun kv => JStr (fst kv)) (map_to_list m))
  | JStr s => Value (map (fun c => JStr (String c EmptyString)) (list_ascii_of_string s))
  | JNull | JBool _ | JNum _ => Raise TypeError
  end.

(** The body of the loop of [extract_patterns] for one result: the pattern
    to append, if any. *)
Definition pattern_of (pattern_type : string) (result : json) : raised (option json) :=
  let doc_data :=
    match result with
    | JList (first :: _) => first
    | _ => result
    end in
  match doc_data with
  | JDict d =>
      let metadata := default (JDict ∅) (d !! "metadata") in
      match metadata with
      | JDict md =>
          Value (Some (JDict
            (<["metadata" := metadata]>
               (<["content" := default (JStr "") (d !! "page_content")]>
                  (<["source" := default (JStr "Unknown") (md !! "source")]>
                     (<["type" := JStr pattern_type]> ∅))))))
      | _ => Raise AttributeError
      end
  | _ => Value None
  end.

Fixpoint collect_patterns (pattern_type : string) (results : list json)
    (patterns : list json) : raised (list json) :=
  match results with
  | [] => Value patterns
  | result :: rest =>
      match pattern_of pattern_type result with
      | Raise e => Raise e
      | Value (Some pattern) => collect_patterns pattern_type rest (patterns ++ [pattern])
      | Value None => collect_patterns pattern_type rest patterns
      end
  end.

Definition extract_patterns (svc : Service) (config_project_id : string)
    (pattern_type : string) (limit : Z) (project_id : option string) : raised (list json) :=
  let search_query := pattern_type +:+ " patterns" in
  let results := search svc config_project_id search_query SEMANTIC limit None None project_id in
  match iterate results with
  | Raise e => Raise e
  | Value l =>
      match collect_patterns pattern_type l [] with
      | Raise e => Raise e
      | Value patterns => Value (slice_to patterns limit)
      end
  end.

End ClientSearch.

(** ** [document_processor.py] and [rag_client.py]: searching *)

Module SuperClaudeSearch.

(** [SuperClaudeDocumentProcessor.search_documents].  Nothing is caught
    here: an exception of a request or of [response.json()] escapes. *)
Definition search_documents (svc : Service) (query : string) (limit : Z)
    (filters : gmap string json) : raised json :=
  match get_ids svc with
  | Failed => Raise ClientError
  | Body ids_status ids_content =>
      if negb (ids_status =? 200)%Z then Value (JList [])
      else
        match ids_content with
        | None => Raise ContentTypeError
        | Some file_ids =>
            if negb (truthy file_ids) then Value (JList [])
            else
              let query_data : gmap string json :=
                <["k" := JNum limit]>
                  (<["file_ids" := file_ids]> (<["query" := JStr query]> ∅)) in
              match post_query_multiple svc query_data with
              | Failed => Raise ClientError
              | Body status content =>
                  if (status =? 200)%Z then
                    match content with
                    | Some j => Value j
                    | None => Raise ContentTypeError
                    end
                  else Value (JList [])
              end
        end
  end.

(** [SuperClaudeRAGClient._hybrid_search] *)
Definition _hybrid_search (svc : Service) (query : string) (limit : Z)
    (filters : gmap string json) : raised json :=
  search_documents svc query limit filters.

(** [SuperClaudeRAGClient.search] *)
Definition search (svc : Service) (query : string) (mode : SearchMode) (limit : Z)
    (file_types languages : option (list string)) : raised json :=
  let f0 : gmap string json := ∅ in
  let f1 := if nonempty file_types
            then <["file_types" := json_strings (default [] file_types)]> f0 else f0 in
  let filters := if nonempty languages
                 then <["languages" := json_strings (default [] languages)]> f1 else f1 in
  match mode with
  | HYBRID => _hybrid_search svc query limit filters
  | _ => search_documents svc query limit filters
  end.

End SuperClaudeSearch.

(** ** [cli.py]: the [index] command *)

Module Cli.





End Cli.

(** ** [examples/custom_bridge.py]: [CustomApplicationBridge.setup_project] *)

Module CustomApplicationBridge.

(** The [total_stats] dictionary. *)
Record TotalStats : Type := mkTotal {
  agg_total_files : nat;
  agg_successful : nat;
  agg_failed : nat;
  agg_by_type : gmap string nat;
  paths_indexed : list string
}.

(** [for file_type, count in by_type.items(): ...] *)
Definition merge_by_type (total by_type : gmap string nat) : gmap string nat :=
  map_fold (fun file_type count acc => <[file_type := default 0 (acc !! file_type) + count]> acc)
           total by_type.

(** One turn of the loop over [project_paths]. *)
Definition add_path (w : World) (pid : string) (c d g t recursive : bool)
    (total_stats : TotalStats) (path : string) : TotalStats :=
  match RAGClient.index_project w pid path c d g t recursive with
  | StatsDict stats _ =>
      mkTotal (agg_total_files total_stats + total_files stats)
              (agg_successful total_stats + successful stats)
              (agg_failed total_stats + failed stats)
              (merge_by_type (agg_by_type total_stats) (by_type stats))
              (paths_indexed total_stats ++ [path])
  | ErrorDict _ | ErrorCountsDict _ _ _ _ =>
      mkTotal (agg_total_files total_stats) (agg_successful total_stats)
              (agg_failed total_stats + 1) (agg_by_type total_stats)
              (paths_indexed total_stats)
  end.

Definition setup_project (w : World) (pid : string) (project_paths : list string)
    (c d g t recursive : bool) : TotalStats :=
  fold_left (add_path w pid c d g t recursive) project_paths (mkTotal 0 0 0 ∅ []).

End CustomApplicationBridge.

(** A service that knows no document and answers every search with the
    empty list. *)
Definition empty_service : Service :=
  mkService (fun _ => Body 200 (Some (JList []))) (Body 200 (Some (JList [])))
            (fun _ => Body 200 (Some (JList []))).

(** * Properties *)

(** ** The model on concrete paths *)

Example path_parsing :
  parts (Path "/home/u/./proj//src/main.py") = ["/"; "home"; "u"; "proj"; "src"; "main.py"]
  /\ str (Path "/home/u/./proj//src/main.py") = "/home/u/proj/src/main.py"
  /\ name (Path "src/main.py") = "main.py"
  /\ suffix (Path "src/main.py") = ".py"
  /\ suffix (Path ".gitignore") = ""
  /\ suffix (Path "a/b.tar.gz") = ".gz"
  /\ suffix (Path "a/b.") = ""
  /\ str (Path "") = "."
  /\ parts (Path "./x") = ["x"].
Proof. repeat split; reflexivity. Qed.

Example classification :
  DocumentProcessor._classify_document (Path "src/main.py") = CODE
  /\ DocumentProcessor._classify_document (Path "README.md") = DOCUMENTATION
  /\ DocumentProcessor._classify_document (Path "config.yaml") = CONFIGURATION
  /\ DocumentProcessor._classify_document (Path "tests/test_foo.py") = TEST
  /\ DocumentProcessor._classify_document (Path "Makefile") = OTHER
  /\ SuperClaudeDocumentProcessor._get_file_type "src/Main.PY" = CODE
  /\ SuperClaudeDocumentProcessor._get_file_type "e2e/login.ts" = TEST.
Proof. repeat split; vm_compute; reflexivity. Qed.

(** ** Strings *)

Lemma startswith_app (p r : string) : PyStr.startswith p (p +:+ r) = true.
Proof.
  induction p as [|a p IH]; simpl; [reflexivity|].
  rewrite Ascii.eqb_refl. exact IH.
Qed.

Lemma startswith_inv (p s : string) :
  PyStr.startswith p s = true -> exists r, s = p +:+ r.
Proof.
  revert s. induction p as [|a p IH]; intros s H.
  - exists s. reflexivity.
  - destruct s as [|b s]; simpl in H; [discriminate|].
    apply andb_true_iff in H as [Hab Hrest].
    apply Ascii.eqb_eq in Hab. subst b.
    destruct (IH _ Hrest) as [r ->]. exists r. reflexivity.
Qed.

(** [contains] is substring containment: the needle sits somewhere between
    a prefix and a suffix of the haystack. *)
Lemma contains_app (t pre post : string) :
  PyStr.contains t (pre +:+ t +:+ post) = true.
Proof.
  induction pre as [|a pre IH].
  - simpl. destruct (t +:+ post) eqn:E; simpl.
    + destruct t; [reflexivity | discriminate].
    + rewrite <- E, startswith_app. reflexivity.
  - change (String a pre +:+ t +:+ post) with (String a (pre +:+ t +:+ post)).
    simpl. rewrite IH. apply orb_true_r.
Qed.

Lemma contains_inv (t s : string) :
  PyStr.contains t s = true -> exists pre post, s = pre +:+ t +:+ post.
Proof.
  induction s as [|a s IH]; simpl; intros H.
  - apply orb_true_iff in H as [H|H]; [|discriminate].
    destruct (startswith_inv _ _ H) as [r Hr]. exists "", r. exact Hr.
  - apply orb_true_iff in H as [H|H].
    + destruct (startswith_inv _ _ H) as [r Hr]. exists "", r. exact Hr.
    + destruct (IH H) as (pre & post & ->). exists (String a pre), post. reflexivity.
Qed.

Lemma any_in_intro (ts : list string) (t s : string) :
  In t ts -> PyStr.contains t s = true -> PyStr.any_in ts s = true.
Proof.
  intros Hin Hc. unfold PyStr.any_in. apply existsb_exists. exists t. split; assumption.
Qed.

Lemma mem_In (x : string) (xs : list string) : PyStr.mem x xs = true <-> In x xs.
Proof.
  unfold PyStr.mem. rewrite existsb_exists. split.
  - intros (y & Hy & Heq). apply String.eqb_eq in Heq. now subst.
  - intros H. exists x. split; [assumption | apply String.eqb_refl].
Qed.

Lemma DocumentType_eqb_eq (a b : DocumentType) : DocumentType_eqb a b = true <-> a = b.
Proof. destruct a, b; simpl; split; intros H; try reflexivity; discriminate. Qed.

(** ** The inclusion filters *)

Import SuperClaudeDocumentProcessor.

Lemma excluded_by_substring (w : World) (p : PurePath) (c d g t : bool) :
  PyStr.any_in DocumentProcessor.exclusions (str p) = true ->
  DocumentProcessor._should_include_file w p c d g t = false.
Proof. intros H. unfold DocumentProcessor._should_include_file. now rewrite H. Qed.

Lemma skipped_by_substring (fp : string) (patterns : gset string) :
  PyStr.any_in skip_dirs (str (Path fp)) = true ->
  _should_process_file fp patterns = false.
Proof.
  intros H. unfold _should_process_file. rewrite H.
  now destruct (existsb _ _ && negb _).
Qed.

(** C10: in both processors the deny-list is matched as a substring of the
    whole path string.  Whatever the inclusion flags or patterns are (the
    [all] pattern included), a path whose string has a deny-list token
    anywhere inside it is rejected; so [env] inside [environment.py]
    rejects the file in both, and [bin] inside [binary.txt] rejects it in
    [SuperClaudeDocumentProcessor], whose list has [bin]. *)
Theorem deny_list_substring_exclusion :
  (forall (w : World) (p : PurePath) (token pre post : string) (c d g t : bool),
      In token DocumentProcessor.exclusions ->
      str p = pre +:+ token +:+ post ->
      DocumentProcessor._should_include_file w p c d g t = false)
  /\ (forall (fp token pre post : string) (patterns : gset string),
      In token skip_dirs ->
      str (Path fp) = pre +:+ token +:+ post ->
      _should_process_file fp patterns = false)
  /\ (forall (w : World) (c d g t : bool),
      DocumentProcessor._should_include_file w (Path "src/environment.py") c d g t = false)
  /\ (forall patterns : gset string,
      _should_process_file "src/environment.py" patterns = false
      /\ _should_process_file "docs/binary.txt" patterns = false).
Proof.
  split; [|split; [|split]].
  - intros w p token pre post c d g t Hin Hstr.
    apply excluded_by_substring. apply any_in_intro with token; [exact Hin|].
    rewrite Hstr. apply contains_app.
  - intros fp token pre post patterns Hin Hstr.
    apply skipped_by_substring. apply any_in_intro with token; [exact Hin|].
    rewrite Hstr. apply contains_app.
  - intros w c d g t. apply excluded_by_substring. reflexivity.
  - intros patterns. split; apply skipped_by_substring; reflexivity.
Qed.

Lemma deny_list_substring_exclusion_witness :
  DocumentProcessor._should_include_file quiet_world (Path "src/environment.py")
    true true true true = false
  /\ _should_process_file "docs/binary.txt" {["all"]} = false.
Proof.
  destruct deny_list_substring_exclusion as (Hinc & Hproc & _).
  split.
  - apply (Hinc quiet_world (Path "src/environment.py") "env" "src/" "ironment.py").
    + simpl. tauto.
    + reflexivity.
  - apply (Hproc "docs/binary.txt" "bin" "docs/" "ary.txt").
    + simpl. tauto.
    + reflexivity.
Defined.

(** A string passes a deny-list exactly when it contains none of its
    tokens. *)
Lemma any_in_false_iff (ts : list string) (s : string) :
  PyStr.any_in ts s = false
  <-> forall t, In t ts -> forall pre post, s <> pre +:+ t +:+ post.
Proof.
  split.
  - intros Hfalse t Hin pre post Heq.
    rewrite (any_in_intro ts t s Hin) in Hfalse; [discriminate|].
    rewrite Heq. apply contains_app.
  - intros Hno. destruct (PyStr.any_in ts s) eqn:E; [|reflexivity].
    unfold PyStr.any_in in E. apply existsb_exists in E as (t & Hin & Hc).
    destruct (contains_inv _ _ Hc) as (pre & post & Heq).
    now destruct (Hno t Hin pre post).
Qed.

(** [SuperClaudeRAGClient.index_project] never passes an empty set of
    patterns on: with its four flags false it asks for [all]. *)
Lemma no_flags_means_all :
  SuperClaudeRAGClient.include_patterns_of false false false false = {["all"]}.
Proof. vm_compute. reflexivity. Qed.

(** C3, as the code has it: with no pattern at all,
    [SuperClaudeDocumentProcessor._should_process_file] rejects every path
    and the walk selects nothing; with its four flags false,
    [DocumentProcessor._should_include_file] rejects every path that is
    classified as code, documentation, configuration or test, and accepts
    exactly the paths classified [OTHER] whose string has no deny-list token
    and whose size can be read and is at most 10 MiB, so the walk selects
    files of category [OTHER] only. *)
Theorem no_flags_selection :
  (forall (fp : string) (patterns : gset string),
      "all" ∉ patterns -> "code" ∉ patterns -> "docs" ∉ patterns ->
      "configs" ∉ patterns -> "tests" ∉ patterns ->
      _should_process_file fp patterns = false)
  /\ (forall (w : World) (pid : string) (root : PurePath) (recursive : bool),
      collect_files w pid root ∅ recursive = [])
  /\ (forall (w : World) (p : PurePath),
      DocumentProcessor._classify_document p <> OTHER ->
      DocumentProcessor._should_include_file w p false false false false = false)
  /\ (forall (w : World) (p : PurePath),
      DocumentProcessor._should_include_file w p false false false false = true
      <-> DocumentProcessor._classify_document p = OTHER
          /\ (forall token, In token DocumentProcessor.exclusions ->
                forall pre post, str p <> pre +:+ token +:+ post)
          /\ exists st, w_stat w p = Some st /\ (st_size st <= 10 * 1024 * 1024)%Z)
  /\ (forall (w : World) (project_dir p : PurePath) (recursive : bool),
      In p (DocumentProcessor.collect_files w project_dir false false false false recursive) ->
      DocumentProcessor._classify_document p = OTHER).
Proof.
  assert (Hnone : forall (fp : string) (patterns : gset string),
      "all" ∉ patterns -> "code" ∉ patterns -> "docs" ∉ patterns ->
      "configs" ∉ patterns -> "tests" ∉ patterns ->
      _should_process_file fp patterns = false).
  { intros fp patterns Ha Hc Hd Hg Ht. unfold _should_process_file.
    rewrite (bool_decide_eq_false_2 _ Ha), (bool_decide_eq_false_2 _ Hc),
      (bool_decide_eq_false_2 _ Hd), (bool_decide_eq_false_2 _ Hg),
      (bool_decide_eq_false_2 _ Ht).
    destruct (existsb _ _ && negb _); [reflexivity|].
    destruct (PyStr.any_in _ _); reflexivity. }
  assert (Hrej : forall (w : World) (p : PurePath),
      DocumentProcessor._classify_document p <> OTHER ->
      DocumentProcessor._should_include_file w p false false false false = false).
  { intros w p Hother. unfold DocumentProcessor._should_include_file.
    destruct (PyStr.any_in _ _); [reflexivity|].
    destruct (w_stat w p) as [st|]; [|reflexivity].
    destruct (st_size st >? _)%Z; [reflexivity|].
    destruct (DocumentProcessor._classify_document p); simpl; try reflexivity.
    now contradiction Hother. }
  assert (Hother : forall (w : World) (p : PurePath),
      DocumentProcessor._should_include_file w p false false false false = true ->
      DocumentProcessor._classify_document p = OTHER).
  { intros w p Hacc.
    destruct (DocumentProcessor._classify_document p) eqn:Hty; try reflexivity;
      rewrite Hrej in Hacc by (rewrite Hty; discriminate); discriminate Hacc. }
  split; [exact Hnone | split; [|split; [exact Hrej | split]]].
  - intros w pid root recursive. unfold collect_files.
    induction (w_glob w root _) as [|p ps IH]; simpl; [reflexivity|].
    rewrite IH. unfold enumerate_file.
    rewrite (Hnone (str p) ∅) by set_solver.
    rewrite andb_false_r. reflexivity.
  - intros w p. split.
    + intros Hacc. split; [exact (Hother w p Hacc)|].
      unfold DocumentProcessor._should_include_file in Hacc.
      destruct (PyStr.any_in DocumentProcessor.exclusions (str p)) eqn:Hdeny;
        [discriminate|].
      split; [now apply any_in_false_iff|].
      destruct (w_stat w p) as [st|]; [|discriminate]. exists st. split; [reflexivity|].
      unfold DocumentProcessor.size_limit in Hacc.
      destruct (Z.gtb_spec (st_size st) (10 * 1024 * 1024)); [discriminate | lia].
    + intros (Hty & Hdeny & st & Hst & Hsize).
      unfold DocumentProcessor._should_include_file.
      apply any_in_false_iff in Hdeny. rewrite Hdeny, Hst, Hty.
      unfold DocumentProcessor.size_limit.
      destruct (Z.gtb_spec (st_size st) (10 * 1024 * 1024)); [lia | reflexivity].
  - intros w project_dir p recursive Hin.
    unfold DocumentProcessor.collect_files in Hin.
    apply filter_In in Hin as [_ Hacc]. apply andb_true_iff in Hacc as [_ Hacc].
    exact (Hother w p Hacc).
Qed.

Lemma no_flags_selection_witness :
  _should_process_file "src/main.py" ∅ = false
  /\ DocumentProcessor._should_include_file quiet_world (Path "src/main.py")
       false false false false = false
  /\ DocumentProcessor._classify_document (Path "proj/Makefile") = OTHER.
Proof.
  destruct no_flags_selection as (Hproc & _ & Hinc & _ & Hwalk).
  split; [|split].
  - apply Hproc; set_solver.
  - apply Hinc. vm_compute. discriminate.
  - apply (Hwalk makefile_world (Path "proj") (Path "proj/Makefile") true).
    vm_compute. tauto.
Defined.

(** C3 fails for [DocumentProcessor]: a file of category [OTHER] passes the
    filter although all four flags are false. *)
Lemma no_flags_counterexample :
  DocumentProcessor._classify_document (Path "proj/Makefile") = OTHER
  /\ DocumentProcessor._should_include_file makefile_world (Path "proj/Makefile")
       false false false false = true
  /\ DocumentProcessor.collect_files makefile_world (Path "proj")
       false false false false true = [Path "proj/Makefile"].
Proof. repeat split; vm_compute; reflexivity. Qed.



(** Of the three allow-listed names only [.dockerignore] gets through:
    [.gitignore] contains [.git] and [.env.example] contains [env], which
    are on the deny-list that is consulted next. *)
Lemma allowed_dotfiles_still_skipped (patterns : gset string) :
  _should_process_file "proj/.gitignore" patterns = false
  /\ _should_process_file "proj/.env.example" patterns = false.
Proof. split; apply skipped_by_substring; reflexivity. Qed.





(** ** Health check *)

(** C9, as the code has it: both [health_check]s answer [True] exactly when
    the GET is answered with status 200; any other status, and any exception
    of the request, gives [False], and nothing is raised. *)
Theorem health_check_iff_200 :
  forall w : World,
    (RAGClient.health_check w = true <-> w_health w = Response 200)
    /\ (health_check w = true <-> w_health w = Response 200).
Proof.
  intros w. unfold RAGClient.health_check, health_check.
  destruct (w_health w) as [status|].
  - assert (H : (status =? 200)%Z = true <-> Response status = Response 200).
    { rewrite Z.eqb_eq. split; [intros ->; reflexivity | intros [= ->]; reflexivity]. }
    split; exact H.
  - split; split; discriminate.
Qed.

(** C9 fails at the other 2xx codes: a health endpoint that answers 204 is
    reported unhealthy. *)
Lemma health_check_counterexample :
  w_health no_content_world = Response 204
  /\ (200 <= 204 < 300)%Z
  /\ RAGClient.health_check no_content_world = false
  /\ health_check no_content_world = false.
Proof. repeat split; lia. Qed.

(** ** A root that does not exist *)

(** C8, as the code has it: when [exists()] answers [False] for the
    project path, no indexing run takes place and no statistics are
    produced: [SuperClaudeDocumentProcessor.index_project] raises
    [ValueError], and [DocumentProcessor.process_project] returns, without
    raising, a dictionary that has only the [error] key, which
    [RAGClient.index_project] hands to its caller.  When [exists()] itself
    raises, the exception escapes from both; [RAGClient.index_project]
    catches it and returns the error together with the counters
    [total_files = 0], [successful = 0] and [failed = 1]. *)
Theorem missing_root_outcomes :
  (forall (w : World) (pid project_path : string) (patterns : gset string)
          (recursive : bool) (batch_size : Z),
      (w_exists w (Path project_path) = Returned false ->
       index_project w pid project_path patterns recursive batch_size
       = Raised (ValueError ("Project path does not exist: " +:+ str (Path project_path))))
      /\ (forall e, w_exists w (Path project_path) = Raised e ->
          index_project w pid project_path patterns recursive batch_size = Raised e))
  /\ (forall (w : World) (pid project_path : string) (project_dir : PurePath)
             (c d g t recursive : bool),
      w_resolve w (Path project_path) = Returned project_dir ->
      (w_exists w project_dir = Returned false ->
       DocumentProcessor.process_project w pid project_path c d g t recursive
       = Returned (ErrorDict ("Project path does not exist: " +:+ project_path))
       /\ RAGClient.index_project w pid project_path c d g t recursive
          = ErrorDict ("Project path does not exist: " +:+ project_path))
      /\ (forall e, w_exists w project_dir = Raised e ->
          DocumentProcessor.process_project w pid project_path c d g t recursive
          = Raised e
          /\ RAGClient.index_project w pid project_path c d g t recursive
             = ErrorCountsDict (RAGClient.exception_text e) 0 0 1)).
Proof.
  split.
  - intros w pid project_path patterns recursive batch_size.
    unfold index_project. split; [intros Hex | intros e Hex]; now rewrite Hex.
  - intros w pid project_path project_dir c d g t recursive Hres.
    unfold RAGClient.index_project, DocumentProcessor.process_project.
    rewrite Hres. split; [intros Hex | intros e Hex]; rewrite Hex; split; reflexivity.
Qed.

Lemma missing_root_outcomes_witness :
  index_project empty_world "p" "/no/such/dir" {["code"; "docs"]} true 10
    = Raised (ValueError "Project path does not exist: /no/such/dir")
  /\ RAGClient.index_project empty_world "p" "/no/such/dir" true true false false true
    = ErrorDict "Project path does not exist: /no/such/dir"
  /\ DocumentProcessor.process_project long_name_world "p" long_root true true false false true
    = Raised (OSError "[Errno 36] File name too long").
Proof.
  destruct missing_root_outcomes as (Hraise & Hdict).
  split; [|split].
  - apply (proj1 (Hraise empty_world "p" "/no/such/dir" {["code"; "docs"]} true 10%Z)).
    reflexivity.
  - apply (proj1 (Hdict empty_world "p" "/no/such/dir" (Path "/no/such/dir")
                    true true false false true eq_refl)).
    reflexivity.
  - apply (proj2 (Hdict long_name_world "p" long_root (Path long_root)
                    true true false false true eq_refl)).
    reflexivity.
Defined.

(** C8 fails where the existence test raises: for a root whose name is too
    long to exist, [SuperClaudeDocumentProcessor.index_project] raises the
    [OSError] of the test, not its [ValueError], and
    [RAGClient.index_project] raises nothing and returns a dictionary with
    counters, one failure among zero files; and where the test answers
    [False], [DocumentProcessor.process_project] returns normally. *)
Lemma missing_root_counterexample :
  w_exists long_name_world (Path long_root)
    = Raised (OSError "[Errno 36] File name too long")
  /\ index_project long_name_world "p" long_root {["code"; "docs"]} true 10
     = Raised (OSError "[Errno 36] File name too long")
  /\ RAGClient.index_project long_name_world "p" long_root true true false false true
     = ErrorCountsDict "[Errno 36] File name too long" 0 0 1
  /\ DocumentProcessor.process_project empty_world "p" "/no/such/dir"
       true true false false true
     = Returned (ErrorDict "Project path does not exist: /no/such/dir").
Proof. repeat split; vm_compute; reflexivity. Qed.

(** ** Language tags *)

Lemma language_map_extensions (ext l : string) :
  DocumentProcessor.language_map !! ext = Some l ->
  PyStr.mem ext DocumentProcessor.code_extensions = true \/ ext = ".html".
Proof.
  unfold DocumentProcessor.language_map. intros H.
  apply elem_of_list_to_map_2 in H.
  repeat (apply elem_of_cons in H as [H|H];
          [injection H as -> ->; first [left; reflexivity | right; reflexivity]|]).
  now apply elem_of_nil in H.
Qed.

Lemma extension_map_extensions (ext l : string) :
  extension_map !! ext = Some l -> PyStr.mem ext code_extensions = true.
Proof.
  unfold extension_map. intros H.
  apply elem_of_list_to_map_2 in H.
  repeat (apply elem_of_cons in H as [H|H]; [injection H as -> ->; reflexivity|]).
  now apply elem_of_nil in H.
Qed.

(** C7, as the code has it: the language of a file's metadata is what the
    language table has for the lower-cased extension, whatever the category
    is.  A language is therefore present only for an extension of the table;
    the category is then code, or test when a test pattern matches the path
    (or documentation, for [.html] in [DocumentProcessor]). *)
Theorem language_follows_extension :
  (forall (w : World) (pid : string) (p : PurePath) (md : DocumentMetadata),
      DocumentProcessor.metadata_of w pid p = Some md ->
      language md = DocumentProcessor.language_map !! PyStr.lower (suffix p)
      /\ (is_Some (language md) ->
          file_type md = CODE \/ file_type md = TEST \/ file_type md = DOCUMENTATION))
  /\ (forall (w : World) (pid : string) (patterns : gset string) (p : PurePath)
             (item : WorkItem),
      In item (enumerate_file w pid patterns p) ->
      language (snd item) = extension_map !! PyStr.lower (suffix (Path (str p)))
      /\ (is_Some (language (snd item)) ->
          file_type (snd item) = CODE \/ file_type (snd item) = TEST)).
Proof.
  split.
  - intros w pid p md Hmd. unfold DocumentProcessor.metadata_of in Hmd.
    destruct (w_stat_later w p) as [st|]; [|discriminate].
    injection Hmd as <-. cbn [language file_type]. split; [reflexivity|].
    unfold DocumentProcessor._detect_language, DocumentProcessor._classify_document.
    intros [l Hl].
    destruct (PyStr.any_in _ _); [tauto|].
    destruct (language_map_extensions _ _ Hl) as [Hcode | Hhtml].
    + rewrite Hcode. tauto.
    + rewrite Hhtml.
      change (PyStr.mem ".html" DocumentProcessor.code_extensions) with false.
      change (PyStr.mem ".html" DocumentProcessor.doc_extensions) with true. tauto.
  - intros w pid patterns p item Hin. unfold enumerate_file in Hin.
    destruct (w_is_file w p && _); [|contradiction].
    destruct (w_stat w p) as [st|]; [|contradiction].
    destruct Hin as [<- | []]. cbn [snd language file_type]. split; [reflexivity|].
    unfold _get_language, _get_file_type. intros [l Hl].
    destruct (PyStr.any_in _ _); [tauto|].
    rewrite (extension_map_extensions _ _ Hl). tauto.
Qed.

Lemma language_follows_extension_witness :
  language (mkMeta "src/main.py" CODE (Some "python") 0 0 "p")
    = DocumentProcessor.language_map !! PyStr.lower (suffix (Path "src/main.py")).
Proof.
  apply (proj1 language_follows_extension quiet_world "p" (Path "src/main.py")
           (mkMeta "src/main.py" CODE (Some "python") 0 0 "p")).
  vm_compute. reflexivity.
Defined.

(** C7 fails in both processors: a test file written in Python is of
    category [TEST] and carries the language [python]. *)
Lemma language_counterexample :
  option_map (fun md => (file_type md, language md))
    (DocumentProcessor.metadata_of quiet_world "p" (Path "proj/tests/test_foo.py"))
    = Some (TEST, Some "python")
  /\ map (fun item : WorkItem => (file_type (snd item), language (snd item)))
       (enumerate_file quiet_world "p" {["tests"]} (Path "proj/tests/test_foo.py"))
    = [(TEST, Some "python")].
Proof. split; vm_compute; reflexivity. Qed.

(** ** Counting *)

(** One turn of the loop of [process_project] counts its file once. *)
Lemma process_file_counts (w : World) (pid : string) (stats : IndexingStats) (p : PurePath) :
  total_files (DocumentProcessor.process_file w pid stats p) = total_files stats
  /\ successful (DocumentProcessor.process_file w pid stats p)
     + failed (DocumentProcessor.process_file w pid stats p)
     = successful stats + failed stats + 1.
Proof.
  unfold DocumentProcessor.process_file.
  destruct (w_stat_later w p) as [st|]; cbn.
  - destruct (DocumentProcessor._upload_document w p _); cbn; lia.
  - lia.
Qed.

Lemma process_files_counts (w : World) (pid : string) (files : list PurePath) :
  forall stats : IndexingStats,
    let stats' := fold_left (DocumentProcessor.process_file w pid) files stats in
    total_files stats' = total_files stats
    /\ successful stats' + failed stats' = successful stats + failed stats + length files.
Proof.
  induction files as [|p files IH]; intros stats; cbn.
  - lia.
  - destruct (IH (DocumentProcessor.process_file w pid stats p)) as [Ht Hs].
    destruct (process_file_counts w pid stats p) as [Ht1 Hs1].
    cbn in Ht, Hs. lia.
Qed.

Lemma record_result_counts (stats : IndexingStats) (entry : WorkItem * gather_result) :
  total_files (record_result stats entry) = total_files stats
  /\ successful (record_result stats entry) + failed (record_result stats entry)
     = successful stats + failed stats + 1.
Proof.
  destruct entry as [[fp md] [|[|]]]; cbn; lia.
Qed.

Lemma record_results_counts (entries : list (WorkItem * gather_result)) :
  forall stats : IndexingStats,
    let stats' := fold_left record_result entries stats in
    total_files stats' = total_files stats
    /\ successful stats' + failed stats' = successful stats + failed stats + length entries.
Proof.
  induction entries as [|e entries IH]; intros stats; cbn.
  - lia.
  - destruct (IH (record_result stats e)) as [Ht Hs].
    destruct (record_result_counts stats e) as [Ht1 Hs1].
    cbn in Ht, Hs. lia.
Qed.

(** [gather] answers with one result per task, so [zip] loses nothing. *)
Lemma zip_gather_length (w : World) (batch : list WorkItem) :
  length (zip batch (gather w batch)) = length batch.
Proof.
  unfold gather. rewrite length_zip_with, length_map. apply Nat.min_id.
Qed.

Lemma run_batches_counts (w : World) (bs : list (list WorkItem)) :
  forall st : IndexingStats * list (list WorkItem),
    let st' := fold_left (run_batch w) bs st in
    total_files (fst st') = total_files (fst st)
    /\ successful (fst st') + failed (fst st')
       = successful (fst st) + failed (fst st) + length (concat bs)
    /\ snd st' = snd st ++ bs.
Proof.
  induction bs as [|batch bs IH]; intros st; cbn.
  - rewrite app_nil_r. repeat split; lia.
  - destruct (IH (run_batch w st batch)) as (Ht & Hs & Hlog).
    destruct (record_results_counts (zip batch (gather w batch)) (fst st)) as [Ht1 Hs1].
    rewrite zip_gather_length in Hs1.
    change (fold_left record_result (zip batch (gather w batch)) (fst st))
      with (fst (run_batch w st batch)) in Ht1, Hs1.
    assert (Hl : snd (run_batch w st batch) = snd st ++ [batch]) by reflexivity.
    rewrite Hl, <- app_assoc in Hlog.
    rewrite length_app. repeat split; [lia | lia | exact Hlog].
Qed.

(** ** The batches *)

(** With a step of at least 1 the loop over [range(0, n, b)] visits the
    whole list: the slices, put one after the other, are the worklist. *)
Lemma concat_slices {A : Type} (l : list A) (b : nat) :
  1 <= b ->
  forall fuel i, length l - i <= fuel ->
    concat (map (fun j => slice l j (j + b)) (range_from fuel i (length l) b)) = drop i l.
Proof.
  intros Hb. induction fuel as [|fuel IH]; intros i Hfuel; cbn [range_from].
  - rewrite drop_ge by lia. reflexivity.
  - destruct (Nat.ltb_spec i (length l)) as [Hlt|Hge].
    + rewrite map_cons, concat_cons, IH by lia. unfold slice.
      replace (i + b - i) with b by lia.
      rewrite <- drop_drop. apply take_drop.
    + rewrite drop_ge by lia. reflexivity.
Qed.

Lemma concat_batches {A : Type} (l : list A) (b : nat) :
  1 <= b -> concat (batches l b) = l.
Proof.
  intros Hb. unfold batches. rewrite (concat_slices l b Hb) by lia. reflexivity.
Qed.

Lemma upload_batches_unfold (w : World) (files : list WorkItem) (batch_size : Z) :
  (1 <= batch_size)%Z ->
  upload_batches w files batch_size
  = Returned (fold_left (run_batch w) (batches files (Z.to_nat batch_size))
                (mkStats (length files) 0 0 ∅, [])).
Proof.
  intros Hb. unfold upload_batches, batch_starts, batches.
  destruct batch_size as [|b|b]; try lia.
  rewrite Z2Nat.inj_pos. reflexivity.
Qed.

(** C1: every indexing run that is carried through returns statistics in
    which [successful + failed] is [total_files], the length of the
    worklist: the loop of [DocumentProcessor.process_project] (and
    [RAGClient.index_project], which hands its result on), and the batched
    loop of [SuperClaudeDocumentProcessor.index_project] for every batch
    size of at least 1. *)
Theorem counts_add_up :
  (forall (w : World) (pid : string) (files : list PurePath),
      total_files (DocumentProcessor.run_files w pid files) = length files
      /\ successful (DocumentProcessor.run_files w pid files)
         + failed (DocumentProcessor.run_files w pid files)
         = total_files (DocumentProcessor.run_files w pid files))
  /\ (forall (w : World) (pid project_path : string) (project_dir : PurePath)
             (c d g t recursive : bool),
      w_resolve w (Path project_path) = Returned project_dir ->
      w_exists w project_dir = Returned true ->
      exists (stats : IndexingStats) (message : option string),
        DocumentProcessor.process_project w pid project_path c d g t recursive
          = Returned (StatsDict stats message)
        /\ RAGClient.index_project w pid project_path c d g t recursive
          = StatsDict stats message
        /\ total_files stats
           = length (DocumentProcessor.collect_files w project_dir c d g t recursive)
        /\ successful stats + failed stats = total_files stats)
  /\ (forall (w : World) (files : list WorkItem) (batch_size : Z),
      (1 <= batch_size)%Z ->
      exists (stats : IndexingStats) (issued : list (list WorkItem)),
        upload_batches w files batch_size = Returned (stats, issued)
        /\ total_files stats = length files
        /\ successful stats + failed stats = total_files stats)
  /\ (forall (w : World) (pid project_path : string) (patterns : gset string)
             (recursive : bool) (batch_size : Z),
      w_exists w (Path project_path) = Returned true ->
      (1 <= batch_size)%Z ->
      exists stats : IndexingStats,
        index_project w pid project_path patterns recursive batch_size = Returned stats
        /\ total_files stats
           = length (collect_files w pid (Path project_path) patterns recursive)
        /\ successful stats + failed stats = total_files stats).
Proof.
  assert (Hrun : forall (w : World) (pid : string) (files : list PurePath),
      total_files (DocumentProcessor.run_files w pid files) = length files
      /\ successful (DocumentProcessor.run_files w pid files)
         + failed (DocumentProcessor.run_files w pid files)
         = total_files (DocumentProcessor.run_files w pid files)).
  { intros w pid files. unfold DocumentProcessor.run_files.
    destruct (process_files_counts w pid files (mkStats (length files) 0 0 ∅)) as [Ht Hs].
    cbn in Ht, Hs. split; [exact Ht | lia]. }
  assert (Hbatch : forall (w : World) (files : list WorkItem) (batch_size : Z),
      (1 <= batch_size)%Z ->
      exists (stats : IndexingStats) (issued : list (list WorkItem)),
        upload_batches w files batch_size = Returned (stats, issued)
        /\ total_files stats = length files
        /\ successful stats + failed stats = total_files stats).
  { intros w files batch_size Hb.
    rewrite (upload_batches_unfold w files batch_size Hb).
    destruct (run_batches_counts w (batches files (Z.to_nat batch_size))
                (mkStats (length files) 0 0 ∅, [])) as (Ht & Hs & _).
    rewrite concat_batches in Hs by lia. cbn in Ht, Hs.
    destruct (fold_left _ _ _) as [stats issued]. cbn in Ht, Hs.
    exists stats, issued. repeat split; [exact Ht | lia]. }
  split; [exact Hrun | split; [|split; [exact Hbatch|]]].
  - intros w pid project_path project_dir c d g t recursive Hres Hex.
    unfold RAGClient.index_project, DocumentProcessor.process_project.
    rewrite Hres, Hex. cbn [negb].
    destruct (DocumentProcessor.collect_files w project_dir c d g t recursive)
      as [|p files] eqn:Hfiles.
    + exists (mkStats 0 0 0 ∅), (Some "No files found to process").
      repeat split.
    + exists (DocumentProcessor.run_files w pid (p :: files)), None.
      destruct (Hrun w pid (p :: files)) as [Ht Hs].
      repeat split; assumption.
  - intros w pid project_path patterns recursive batch_size Hex Hb.
    unfold index_project. rewrite Hex. cbn [negb].
    destruct (Hbatch w (collect_files w pid (Path project_path) patterns recursive)
                batch_size Hb) as (stats & issued & -> & Ht & Hs).
    exists stats. repeat split; assumption.
Qed.

Lemma counts_add_up_witness :
  exists (stats : IndexingStats) (issued : list (list WorkItem)),
    upload_batches rejecting_world
      [("a.py", mkMeta "a.py" CODE (Some "python") 1 0 "p");
       ("b.md", mkMeta "b.md" DOCUMENTATION None 2 0 "p");
       ("c.py", mkMeta "c.py" CODE (Some "python") 3 0 "p")] 2
      = Returned (stats, issued)
    /\ total_files stats = 3
    /\ successful stats + failed stats = total_files stats.
Proof.
  destruct counts_add_up as (_ & _ & Hbatch & _).
  apply (Hbatch rejecting_world
           [("a.py", mkMeta "a.py" CODE (Some "python") 1 0 "p");
            ("b.md", mkMeta "b.md" DOCUMENTATION None 2 0 "p");
            ("c.py", mkMeta "c.py" CODE (Some "python") 3 0 "p")] 2%Z).
  lia.
Defined.

(** When [process_project] raises, [RAGClient.index_project] answers with
    an error dictionary whose counters are fixed: no run was completed. *)
Lemma index_project_fallback (w : World) (pid project_path : string)
    (e : exception) (c d g t recursive : bool) :
  w_resolve w (Path project_path) = Raised e ->
  RAGClient.index_project w pid project_path c d g t recursive
  = ErrorCountsDict (RAGClient.exception_text e) 0 0 1.
Proof.
  intros Hres. unfold RAGClient.index_project, DocumentProcessor.process_project.
  now rewrite Hres.
Qed.

(** ** The tally by type *)




(** ** Batches and their order *)

Lemma ceil_step (m b : nat) :
  1 <= b -> 0 < m -> (m + b - 1) / b = S ((m - b + b - 1) / b).
Proof.
  intros Hb Hm. destruct (Nat.le_gt_cases b m) as [Hle|Hgt].
  - replace (m + b - 1) with ((m - b + b - 1) + 1 * b) by lia.
    rewrite Nat.div_add by lia. lia.
  - replace (m - b) with 0 by lia.
    replace (m + b - 1) with ((m - 1) + 1 * b) by lia.
    rewrite Nat.div_add by lia.
    rewrite !Nat.div_small by lia. reflexivity.
Qed.

(** [range(0, n, b)] is [0, b, 2b, ...], with [ceil(n / b)] elements. *)
Lemma range_from_closed (n b : nat) :
  1 <= b ->
  forall fuel i, n - i <= fuel ->
    range_from fuel i n b = map (fun k => i + k * b) (seq 0 ((n - i + b - 1) / b)).
Proof.
  intros Hb. induction fuel as [|fuel IH]; intros i Hfuel; cbn [range_from].
  - replace (n - i) with 0 by lia. rewrite Nat.div_small by lia. reflexivity.
  - destruct (Nat.ltb_spec i n) as [Hlt|Hge].
    + rewrite (ceil_step (n - i) b) by lia.
      rewrite IH by lia.
      replace (n - (i + b)) with (n - i - b) by lia.
      cbn [seq map]. rewrite <- seq_shift, map_map.
      f_equal; [lia|]. apply map_ext. intros k. lia.
    + replace (n - i) with 0 by lia. rewrite Nat.div_small by lia. reflexivity.
Qed.

Lemma batches_closed {A : Type} (l : list A) (b : nat) :
  1 <= b ->
  batches l b = map (fun k => take b (drop (k * b) l)) (seq 0 ((length l + b - 1) / b)).
Proof.
  intros Hb. unfold batches.
  rewrite (range_from_closed (length l) b Hb (length l) 0) by lia.
  rewrite map_map, Nat.sub_0_r. apply map_ext. intros k.
  unfold slice. cbn [Nat.add]. f_equal. lia.
Qed.

(** The ceiling is where it should be. *)
Lemma ceil_bounds (n b : nat) :
  1 <= b -> n <= (n + b - 1) / b * b /\ (n + b - 1) / b * b < n + b.
Proof.
  intros Hb.
  pose proof (Nat.div_mod_eq (n + b - 1) b) as Hdm.
  pose proof (Nat.mod_upper_bound (n + b - 1) b ltac:(lia)) as Hmod.
  split; nia.
Qed.

(** Counting one upload after the other, without batches. *)
Lemma record_results_gather (w : World) (batch : list WorkItem) :
  forall stats : IndexingStats,
    fold_left record_result (zip batch (gather w batch)) stats
    = fold_left
        (fun s item => record_result s (item, GValue (_upload_document w (fst item) (snd item))))
        batch stats.
Proof.
  induction batch as [|item batch IH]; intros stats; [reflexivity|].
  cbn [gather map zip zip_with fold_left]. apply IH.
Qed.

Lemma run_batches_flat (w : World) (bs : list (list WorkItem)) :
  forall st : IndexingStats * list (list WorkItem),
    fst (fold_left (run_batch w) bs st)
    = fold_left
        (fun s item => record_result s (item, GValue (_upload_document w (fst item) (snd item))))
        (concat bs) (fst st).
Proof.
  induction bs as [|batch bs IH]; intros st; [reflexivity|].
  cbn [fold_left concat]. rewrite IH, fold_left_app.
  unfold run_batch at 1. cbn [fst]. now rewrite record_results_gather.
Qed.

(** For a batch size of at least 1 the statistics are those of the plain
    loop over the worklist, and the batches issued are [batches]. *)
Lemma upload_batches_flat (w : World) (files : list WorkItem) (batch_size : Z) :
  (1 <= batch_size)%Z ->
  upload_batches w files batch_size
  = Returned
      (fold_left
         (fun s item => record_result s (item, GValue (_upload_document w (fst item) (snd item))))
         files (mkStats (length files) 0 0 ∅),
       batches files (Z.to_nat batch_size)).
Proof.
  intros Hb. rewrite (upload_batches_unfold w files batch_size Hb).
  pose proof (run_batches_flat w (batches files (Z.to_nat batch_size))
                (mkStats (length files) 0 0 ∅, [])) as Hstats.
  destruct (run_batches_counts w (batches files (Z.to_nat batch_size))
              (mkStats (length files) 0 0 ∅, [])) as (_ & _ & Hlog).
  rewrite concat_batches in Hstats by lia. cbn [fst snd app] in Hstats, Hlog.
  destruct (fold_left (run_batch w) _ _) as [stats issued].
  cbn [fst snd] in Hstats, Hlog. now subst.
Qed.

(** ** The runs of the upload loop *)

Lemma loop_steps_trans (w : World) (files : list WorkItem) (b : nat)
    (s1 s2 s3 : LoopState) (t1 t2 : list event) :
  loop_steps w files b s1 t1 s2 ->
  loop_steps w files b s2 t2 s3 ->
  loop_steps w files b s1 (t1 ++ t2) s3.
Proof.
  induction 1 as [s|s1 s2 s3' u1 u2 Hstep Hsteps IH]; intros Hrest; [exact Hrest|].
  rewrite <- app_assoc. eapply steps_step; [exact Hstep | exact (IH Hrest)].
Qed.

(** What [gather] collects for a task is what [_upload_document] returns
    for its item. *)
Lemma gather_lookup (w : World) (batch : list WorkItem) (j : nat) (item : WorkItem) :
  batch !! j = Some item ->
  gather w batch !! j = Some (GValue (_upload_document w (fst item) (snd item))).
Proof.
  unfold gather. revert j. induction batch as [|x batch IH]; intros j Hj; [discriminate Hj|].
  destruct j as [|j]; cbn in *; [now injection Hj as -> | now apply IH].
Qed.

(** A move makes events of the batch at hand only, and batch numbers never
    go down. *)
Lemma loop_step_index (w : World) (files : list WorkItem) (b : nat)
    (s s' : LoopState) (t : list event) :
  loop_step w files b s t s' ->
  ls_index s <= ls_index s'
  /\ length t <= 1
  /\ forall e, e ∈ t -> event_batch e = ls_index s.
Proof.
  intros Hstep. destruct Hstep; cbn [ls_index length]; (split; [lia|]); (split; [lia|]);
    intros e He; first [now apply elem_of_nil in He
                       | apply list_elem_of_singleton in He; now subst e].
Qed.

Lemma loop_steps_index (w : World) (files : list WorkItem) (b : nat)
    (s s' : LoopState) (tr : list event) :
  loop_steps w files b s tr s' ->
  forall e, e ∈ tr -> ls_index s <= event_batch e.
Proof.
  induction 1 as [s|s1 s2 s3 t1 t2 Hstep Hsteps IH]; intros e He.
  - now apply elem_of_nil in He.
  - destruct (loop_step_index _ _ _ _ _ _ Hstep) as (Hle & _ & Hbatch).
    apply elem_of_app in He as [He|He].
    + rewrite (Hbatch e He). lia.
    + specialize (IH e He). lia.
Qed.

(** In a run, the events of a batch come before the events of every later
    batch. *)
Lemma loop_steps_order (w : World) (files : list WorkItem) (b : nat)
    (s s' : LoopState) (tr : list event) :
  loop_steps w files b s tr s' ->
  forall p q e e',
    tr !! p = Some e -> tr !! q = Some e' ->
    event_batch e < event_batch e' -> p < q.
Proof.
  induction 1 as [s|s1 s2 s3 t1 t2 Hstep Hsteps IH]; intros p q e e' Hp Hq Hlt.
  - discriminate Hp.
  - destruct (loop_step_index _ _ _ _ _ _ Hstep) as (Hle & Hlen & Hbatch).
    apply lookup_app_Some in Hp as [Hp | [Hp1 Hp2]];
      apply lookup_app_Some in Hq as [Hq | [Hq1 Hq2]].
    + apply list_elem_of_lookup_2 in Hp, Hq.
      rewrite (Hbatch _ Hp), (Hbatch _ Hq) in Hlt. lia.
    + apply lookup_lt_Some in Hp. lia.
    + apply list_elem_of_lookup_2 in Hp2, Hq.
      rewrite (Hbatch _ Hq) in Hlt.
      pose proof (loop_steps_index _ _ _ _ _ _ Hsteps _ Hp2). lia.
    + specialize (IH _ _ _ _ Hp2 Hq2 Hlt). lia.
Qed.

Lemma settle_events_Some (w : World) (k j : nat) (batch : list WorkItem)
    (item : WorkItem) :
  batch !! j = Some item ->
  settle_events w k batch j
  = [EvSettle k j (fst item) (GValue (_upload_document w (fst item) (snd item)))].
Proof. intros Hj. unfold settle_events, WorkItem in *. now rewrite Hj. Qed.

Lemma task_events_Some (w : World) (k j : nat) (batch : list WorkItem)
    (item : WorkItem) :
  batch !! j = Some item ->
  task_events w k batch j
  = [EvStart k j (fst item);
     EvSettle k j (fst item) (GValue (_upload_document w (fst item) (snd item)))].
Proof.
  intros Hj. rewrite <- (settle_events_Some w k j batch item Hj).
  unfold task_events, WorkItem in *. now rewrite Hj.
Qed.

(** A move makes events that were still to come, and leaves the others to
    come. *)
Lemma loop_step_pending (w : World) (files : list WorkItem) (b : nat)
    (s s' : LoopState) (t : list event) :
  loop_step w files b s t s' ->
  pending_events w files b s ≡ₚ t ++ pending_events w files b s'.
Proof.
  intros Hstep. destruct Hstep as [k i starts acc batch
                                  |k j starts batch c1 c2 running acc item Hitem
                                  |k j starts batch created r1 r2 acc item result Hitem Hres
                                  |k starts batch acc];
    unfold pending_events; cbn [ls_control ls_index ls_starts map run_events flat_map app].
  - reflexivity.
  - rewrite !flat_map_app. cbn [flat_map].
    rewrite (task_events_Some w k j batch item Hitem),
      (settle_events_Some w k j batch item Hitem).
    cbn [app]. solve_Permutation.
  - rewrite !flat_map_app. cbn [flat_map].
    rewrite (settle_events_Some w k j batch item Hitem).
    rewrite (gather_lookup w batch j item Hitem) in Hres. injection Hres as <-.
    cbn [app]. solve_Permutation.
  - reflexivity.
Qed.

(** A run that leaves the loop has made the events that were to come, each
    once. *)
Lemma loop_steps_pending (w : World) (files : list WorkItem) (b : nat)
    (s s' : LoopState) (tr : list event) :
  loop_steps w files b s tr s' ->
  loop_end s' ->
  tr ≡ₚ pending_events w files b s.
Proof.
  induction 1 as [s|s1 s2 s3 t1 t2 Hstep Hsteps IH]; intros Hend.
  - destruct Hend as [Hstarts Hctl]. unfold pending_events. now rewrite Hstarts, Hctl.
  - rewrite (loop_step_pending _ _ _ _ _ _ Hstep). now rewrite (IH Hend).
Qed.

(** A move does not change the statistics that the run will end with. *)
Lemma loop_step_acc (w : World) (files : list WorkItem) (b : nat)
    (s s' : LoopState) (t : list event) :
  loop_step w files b s t s' ->
  final_acc w files b s = final_acc w files b s'.
Proof. intros Hstep. destruct Hstep; reflexivity. Qed.

Lemma loop_steps_acc (w : World) (files : list WorkItem) (b : nat)
    (s s' : LoopState) (tr : list event) :
  loop_steps w files b s tr s' ->
  loop_end s' ->
  ls_acc s' = final_acc w files b s.
Proof.
  induction 1 as [s|s1 s2 s3 t1 t2 Hstep Hsteps IH]; intros Hend.
  - destruct Hend as [Hstarts Hctl]. unfold final_acc. now rewrite Hstarts, Hctl.
  - rewrite (loop_step_acc _ _ _ _ _ _ Hstep). exact (IH Hend).
Qed.

(** Every state that a run reaches waits for tasks of its batch only. *)
Lemma loop_step_valid (w : World) (files : list WorkItem) (b : nat)
    (s s' : LoopState) (t : list event) :
  loop_step w files b s t s' -> loop_valid s -> loop_valid s'.
Proof.
  intros Hstep. destruct Hstep; unfold loop_valid; cbn [ls_control]; intros Hvalid.
  - rewrite app_nil_r. apply Forall_forall. intros j Hj. apply elem_of_seq in Hj. lia.
  - apply Forall_app in Hvalid as [Hc Hr]. apply Forall_app in Hc as [Hc1 Hc2].
    apply Forall_cons in Hc2 as [Hj Hc2].
    apply Forall_app. split; [apply Forall_app; tauto | apply Forall_cons; tauto].
  - apply Forall_app in Hvalid as [Hc Hr]. apply Forall_app in Hr as [Hr1 Hr2].
    apply Forall_cons in Hr2 as [Hj Hr2].
    apply Forall_app. split; [exact Hc | apply Forall_app; tauto].
  - exact I.
Qed.

Lemma loop_steps_valid (w : World) (files : list WorkItem) (b : nat)
    (s s' : LoopState) (tr : list event) :
  loop_steps w files b s tr s' -> loop_valid s -> loop_valid s'.
Proof.
  induction 1 as [s|s1 s2 s3 t1 t2 Hstep Hsteps IH]; intros Hvalid; [exact Hvalid|].
  apply IH. exact (loop_step_valid _ _ _ _ _ _ Hstep Hvalid).
Qed.

(** The tasks that run can settle, and the tasks that were made can be
    started and settle, in whatever state the gather is. *)
Lemma gather_can_settle (w : World) (files : list WorkItem) (b k : nat)
    (starts : list nat) (batch : list WorkItem) acc :
  forall created running : list nat,
    Forall (fun j => j < length batch) (created ++ running) ->
    exists tr,
      loop_steps w files b
        (mkLoop k starts (AwaitingGather batch created running) acc) tr
        (mkLoop k starts (AwaitingGather batch [] []) acc).
Proof.
  intros created running. revert created.
  induction running as [|j running IHr]; intros created.
  - rewrite app_nil_r. induction created as [|j created IH]; intros Hvalid.
    + exists []. apply steps_refl.
    + apply Forall_cons in Hvalid as [Hj Hvalid].
      destruct (lookup_lt_is_Some_2 batch j Hj) as [item Hitem].
      destruct (IH Hvalid) as [tr Htr].
      exists ([EvStart k j (fst item)]
              ++ [EvSettle k j (fst item) (GValue (_upload_document w (fst item) (snd item)))]
              ++ tr).
      eapply steps_step.
      { apply (step_start w files b k j starts batch [] created [] acc item Hitem). }
      eapply steps_step.
      { apply (step_settle w files b k j starts batch created [] [] acc item _ Hitem).
        now apply gather_lookup. }
      exact Htr.
  - intros Hvalid. apply Forall_app in Hvalid as [Hc Hr].
    apply Forall_cons in Hr as [Hj Hr].
    destruct (lookup_lt_is_Some_2 batch j Hj) as [item Hitem].
    destruct (IHr created) as [tr Htr]; [apply Forall_app; tauto|].
    exists ([EvSettle k j (fst item) (GValue (_upload_document w (fst item) (snd item)))]
            ++ tr).
    eapply steps_step; [|exact Htr].
    apply (step_settle w files b k j starts batch created [] running acc item _ Hitem).
    now apply gather_lookup.
Qed.

(** No run gets stuck: from every state that waits for tasks of its batch
    only, the loop can be run to its end. *)
Lemma loop_can_end (w : World) (files : list WorkItem) (b : nat) :
  forall s : LoopState,
    loop_valid s ->
    exists tr s', loop_steps w files b s tr s' /\ loop_end s'.
Proof.
  assert (Hhead : forall (starts : list nat) (k : nat) acc,
            exists tr s',
              loop_steps w files b (mkLoop k starts AtLoopHead acc) tr s' /\ loop_end s').
  { induction starts as [|i starts IH]; intros k acc.
    - exists [], (mkLoop k [] AtLoopHead acc). split; [apply steps_refl | now split].
    - set (batch := slice files i (i + b)).
      destruct (gather_can_settle w files b k starts batch acc (seq 0 (length batch)) [])
        as [t1 Ht1].
      { rewrite app_nil_r. apply Forall_forall. intros j Hj. apply elem_of_seq in Hj. lia. }
      destruct (IH (S k) (run_batch w acc batch)) as (t2 & s & Ht2 & Hend).
      exists ([] ++ t1 ++ [] ++ t2), s. split; [|exact Hend].
      eapply steps_step; [apply step_issue|].
      eapply loop_steps_trans; [exact Ht1|].
      eapply steps_step; [apply step_resume | exact Ht2]. }
  intros [k starts [|batch created running] acc] Hvalid.
  - apply Hhead.
  - destruct (gather_can_settle w files b k starts batch acc created running Hvalid)
      as [t1 Ht1].
    destruct (Hhead starts (S k) (run_batch w acc batch)) as (t2 & s & Ht2 & Hend).
    exists (t1 ++ [] ++ t2), s. split; [|exact Hend].
    eapply loop_steps_trans; [exact Ht1|].
    eapply steps_step; [apply step_resume | exact Ht2].
Qed.

(** The settling of every task of every batch is among the events of the
    batches. *)
Lemma run_events_settle (w : World) (bs : list (list WorkItem)) :
  forall (k0 k j : nat) (batch : list WorkItem) (item : WorkItem),
    bs !! k = Some batch ->
    batch !! j = Some item ->
    EvSettle (k0 + k) j (fst item) (GValue (_upload_document w (fst item) (snd item)))
      ∈ run_events w k0 bs.
Proof.
  induction bs as [|b0 bs IH]; intros k0 k j batch item Hk Hj; [discriminate Hk|].
  cbn [run_events]. apply elem_of_app. destruct k as [|k].
  - left. injection Hk as ->. rewrite Nat.add_0_r.
    unfold batch_events. apply list_elem_of_In, in_flat_map. exists j. split.
    + apply in_seq. apply lookup_lt_Some in Hj. lia.
    + rewrite (task_events_Some w k0 j batch item Hj). cbn. tauto.
  - right. replace (k0 + S k) with (S k0 + k) by lia. now apply IH with batch.
Qed.

(** Inside a batch the uploads overlap: here the second task of the batch
    starts first and settles last. *)
Example overlapping_run :
  upload_run quiet_world
    [("a.py", mkMeta "a.py" CODE (Some "python") 1 0 "p");
     ("b.md", mkMeta "b.md" DOCUMENTATION None 2 0 "p")] 2
    [EvStart 0 1 "b.md"; EvStart 0 0 "a.py";
     EvSettle 0 0 "a.py" (GValue true); EvSettle 0 1 "b.md" (GValue true)]
    (mkStats 2 2 0 {["code" := 1; "documentation" := 1]},
     [[("a.py", mkMeta "a.py" CODE (Some "python") 1 0 "p");
       ("b.md", mkMeta "b.md" DOCUMENTATION None 2 0 "p")]]).
Proof.
  set (a := ("a.py", mkMeta "a.py" CODE (Some "python") 1 0 "p")).
  set (b := ("b.md", mkMeta "b.md" DOCUMENTATION None 2 0 "p")).
  exists [0], (mkLoop 1 [] AtLoopHead
                 (run_batch quiet_world (mkStats 2 0 0 ∅, []) [a; b])).
  split; [reflexivity|]. split; [|split; [now split|]].
  - change [EvStart 0 1 "b.md"; EvStart 0 0 "a.py";
            EvSettle 0 0 "a.py" (GValue true); EvSettle 0 1 "b.md" (GValue true)]
      with ([] ++ [EvStart 0 1 (fst b)] ++ [EvStart 0 0 (fst a)]
            ++ [EvSettle 0 0 (fst a) (GValue true)]
            ++ [EvSettle 0 1 (fst b) (GValue true)] ++ [] ++ []).
    eapply steps_step; [apply step_issue|].
    eapply steps_step.
    { apply (step_start quiet_world [a; b] 2 0 1 [] [a; b] [0] [] [] _ b). reflexivity. }
    eapply steps_step.
    { apply (step_start quiet_world [a; b] 2 0 0 [] [a; b] [] [] [1] _ a). reflexivity. }
    eapply steps_step.
    { apply (step_settle quiet_world [a; b] 2 0 0 [] [a; b] [] [] [1] _ a); reflexivity. }
    eapply steps_step.
    { apply (step_settle quiet_world [a; b] 2 0 1 [] [a; b] [] [] [] _ b); reflexivity. }
    eapply steps_step; [apply step_resume | apply steps_refl].
  - vm_compute. reflexivity.
Qed.

(** For a batch size of at least 1 the range of the loop gives the batches
    [batches]. *)
Lemma batch_starts_batches (files : list WorkItem) (batch_size : Z) (starts : list nat) :
  (1 <= batch_size)%Z ->
  batch_starts (length files) batch_size = Returned starts ->
  map (fun i => slice files i (i + Z.to_nat batch_size)) starts
  = batches files (Z.to_nat batch_size).
Proof.
  intros Hb. unfold batch_starts, batches.
  destruct batch_size as [|b|b]; try lia.
  rewrite Z2Nat.inj_pos. now intros [= <-].
Qed.

(** C4: for a batch size of at least 1 the upload loop issues the batches
    [batches files b]: [ceil(n / b)] consecutive slices of the worklist, each
    of at least one and at most [b] items, that make up the worklist when
    put end to end; ten items with batch size 3 give batches of 3, 3, 3 and
    1 items.  Every run of the loop on the event loop ends with the
    statistics and the batches that [upload_batches] computes; it starts and
    settles the upload of every item of every batch exactly once, and does
    nothing else; all that it does for a batch comes before all that it does
    for a later batch, so when an upload of a batch starts, every upload of
    every earlier batch has settled.  No run gets stuck: whatever the event
    loop has done so far, the run can be carried to the end of the loop. *)
Theorem batches_partition_and_order :
  forall (w : World) (files : list WorkItem) (batch_size : Z),
    (1 <= batch_size)%Z ->
    let b := Z.to_nat batch_size in
    let result :=
      (fold_left
         (fun s item =>
            record_result s (item, GValue (_upload_document w (fst item) (snd item))))
         files (mkStats (length files) 0 0 ∅),
       batches files b) in
    upload_batches w files batch_size = Returned result
    /\ concat (batches files b) = files
    /\ length (batches files b) = (length files + b - 1) / b
    /\ (length files <= length (batches files b) * b < length files + b)
    /\ (forall k, k < length (batches files b) ->
          batches files b !! k = Some (take b (drop (k * b) files)))
    /\ Forall (fun batch => 1 <= length batch <= b) (batches files b)
    /\ (length files = 10 -> b = 3 -> map length (batches files b) = [3; 3; 3; 1])
    /\ (forall (tr : list event) (res : IndexingStats * list (list WorkItem)),
          upload_run w files batch_size tr res ->
          res = result
          /\ tr ≡ₚ run_events w 0 (batches files b)
          /\ (forall p q e e',
                tr !! p = Some e -> tr !! q = Some e' ->
                event_batch e < event_batch e' -> p < q)
          /\ (forall k k' j j' batch item file_path q,
                batches files b !! k = Some batch ->
                batch !! j = Some item ->
                k < k' ->
                tr !! q = Some (EvStart k' j' file_path) ->
                exists p,
                  p < q
                  /\ tr !! p
                     = Some (EvSettle k j (fst item)
                               (GValue (_upload_document w (fst item) (snd item))))))
    /\ (exists starts,
          batch_starts (length files) batch_size = Returned starts
          /\ forall (tr : list event) (s : LoopState),
               loop_steps w files b
                 (mkLoop 0 starts AtLoopHead (mkStats (length files) 0 0 ∅, [])) tr s ->
               exists tr' res, upload_run w files batch_size (tr ++ tr') res).
Proof.
  intros w files batch_size Hbs b result.
  assert (Hb : 1 <= b) by (unfold b; lia).
  assert (Hlen : length (batches files b) = (length files + b - 1) / b).
  { rewrite batches_closed by exact Hb. now rewrite length_map, length_seq. }
  assert (Hnth : forall k, k < length (batches files b) ->
            batches files b !! k = Some (take b (drop (k * b) files))).
  { intros k Hk. rewrite Hlen in Hk. rewrite batches_closed by exact Hb.
    rewrite list_lookup_fmap, lookup_seq_lt by exact Hk. reflexivity. }
  destruct (ceil_bounds (length files) b Hb) as [Hlo Hhi].
  assert (Hflat : upload_batches w files batch_size = Returned result)
    by exact (upload_batches_flat w files batch_size Hbs).
  split; [|split; [|split; [|split; [|split; [|split; [|split; [|split]]]]]]].
  - exact Hflat.
  - apply concat_batches. exact Hb.
  - exact Hlen.
  - rewrite Hlen. lia.
  - exact Hnth.
  - apply Forall_lookup_2. intros k batch Hk.
    assert (Hklt : k < length (batches files b)) by (eapply lookup_lt_Some; exact Hk).
    rewrite (Hnth k Hklt) in Hk. injection Hk as <-.
    rewrite length_take, length_drop. rewrite Hlen in Hklt.
    assert (k * b < length files) by nia. lia.
  - intros Hten Hthree. unfold batches, slice. rewrite Hthree, Hten. cbn [range_from Nat.ltb Nat.leb Nat.add map].
    rewrite !length_take, !length_drop, Hten. reflexivity.
  - intros tr res (starts & s & Hstarts & Hsteps & Hend & Hacc).
    pose proof (batch_starts_batches files batch_size starts Hbs Hstarts) as Hbatches.
    fold b in Hbatches, Hsteps.
    pose proof (loop_steps_pending _ _ _ _ _ _ Hsteps Hend) as Hperm.
    pose proof (loop_steps_acc _ _ _ _ _ _ Hsteps Hend) as Hfinal.
    unfold pending_events in Hperm. unfold final_acc in Hfinal.
    cbn [ls_control ls_index ls_starts ls_acc] in Hperm, Hfinal.
    rewrite Hbatches in Hperm, Hfinal.
    assert (Hres : res = result).
    { rewrite (upload_batches_unfold w files batch_size Hbs) in Hflat. fold b in Hflat.
      injection Hflat as Hflat. now rewrite <- Hacc, Hfinal. }
    split; [exact Hres|]. split; [exact Hperm|]. split.
    + exact (loop_steps_order _ _ _ _ _ _ Hsteps).
    + intros k k' j j' batch item file_path q Hk Hj Hlt Hq.
      pose proof (run_events_settle w (batches files b) 0 k j batch item Hk Hj) as Hin.
      rewrite <- Hperm in Hin. apply list_elem_of_lookup_1 in Hin as [p Hp].
      exists p. split; [|exact Hp].
      apply (loop_steps_order _ _ _ _ _ _ Hsteps p q _ _ Hp Hq). cbn. lia.
  - assert (Hstarts : exists starts, batch_starts (length files) batch_size = Returned starts).
    { unfold batch_starts. destruct batch_size as [|c|c]; try lia. eauto. }
    destruct Hstarts as [starts Hstarts].
    exists starts. split; [exact Hstarts|]. intros tr s Hsteps.
    destruct (loop_can_end w files b s) as (tr' & s' & Hsteps' & Hend).
    { exact (loop_steps_valid _ _ _ _ _ _ Hsteps I). }
    exists tr', (ls_acc s'), starts, s'.
    split; [exact Hstarts|]. split; [|tauto].
    exact (loop_steps_trans _ _ _ _ _ _ _ _ Hsteps Hsteps').
Qed.

Lemma batches_partition_and_order_witness :
  batches [("a.py", mkMeta "a.py" CODE (Some "python") 1 0 "p");
           ("b.md", mkMeta "b.md" DOCUMENTATION None 2 0 "p");
           ("c.py", mkMeta "c.py" CODE (Some "python") 3 0 "p")] 2
    !! 1 = Some [("c.py", mkMeta "c.py" CODE (Some "python") 3 0 "p")]
  /\ exists tr res,
       upload_run quiet_world
         [("a.py", mkMeta "a.py" CODE (Some "python") 1 0 "p");
          ("b.md", mkMeta "b.md" DOCUMENTATION None 2 0 "p");
          ("c.py", mkMeta "c.py" CODE (Some "python") 3 0 "p")] 2 tr res
       /\ forall q j',
            tr !! q = Some (EvStart 1 j' "c.py") ->
            exists p, p < q /\ tr !! p = Some (EvSettle 0 1 "b.md" (GValue true)).
Proof.
  pose proof (batches_partition_and_order quiet_world
                [("a.py", mkMeta "a.py" CODE (Some "python") 1 0 "p");
                 ("b.md", mkMeta "b.md" DOCUMENTATION None 2 0 "p");
                 ("c.py", mkMeta "c.py" CODE (Some "python") 3 0 "p")] 2%Z
                ltac:(lia)) as (_ & _ & _ & _ & Hnth & _ & _ & Hruns & starts & _ & Hext).
  destruct (Hext [] _ (steps_refl _ _ _ _)) as (tr & res & Hrun).
  cbn [app] in Hrun.
  split.
  - apply (Hnth 1). vm_compute. lia.
  - exists tr, res. split; [exact Hrun|].
    destruct (Hruns tr res Hrun) as (_ & _ & _ & Hbarrier).
    intros q j' Hq.
    exact (Hbarrier 0 1 1 j'
             [("a.py", mkMeta "a.py" CODE (Some "python") 1 0 "p");
              ("b.md", mkMeta "b.md" DOCUMENTATION None 2 0 "p")]
             ("b.md", mkMeta "b.md" DOCUMENTATION None 2 0 "p") "c.py" q
             eq_refl eq_refl ltac:(lia) Hq).
Defined.

(** * Further properties of the pipeline *)

(** ** What a run counts *)

(** The five type names are distinct. *)
Lemma value_eqb (a b : DocumentType) :
  String.eqb (value a) (value b) = DocumentType_eqb a b.
Proof. destruct a, b; reflexivity. Qed.

(** X1: the batch size changes the batches, not the statistics: for any
    two batch sizes of at least 1 the run over a worklist returns the same
    statistics, those of uploading the items one after the other. *)
Theorem batch_size_irrelevant :
  forall (w : World) (files : list WorkItem) (b1 b2 : Z),
    (1 <= b1)%Z -> (1 <= b2)%Z ->
    exists (stats : IndexingStats) (issued1 issued2 : list (list WorkItem)),
      upload_batches w files b1 = Returned (stats, issued1)
      /\ upload_batches w files b2 = Returned (stats, issued2)
      /\ concat issued1 = concat issued2
      /\ stats
         = fold_left
             (fun s item =>
                record_result s (item, GValue (_upload_document w (fst item) (snd item))))
             files (mkStats (length files) 0 0 ∅).
Proof.
  intros w files b1 b2 H1 H2.
  rewrite (upload_batches_flat w files b1 H1), (upload_batches_flat w files b2 H2).
  eexists _, _, _. split; [reflexivity|]. split; [reflexivity|].
  split; [|reflexivity]. rewrite !concat_batches by lia. reflexivity.
Qed.

Lemma batch_size_irrelevant_witness :
  exists (stats : IndexingStats) (issued1 issued2 : list (list WorkItem)),
    upload_batches quiet_world
      [("a.py", mkMeta "a.py" CODE (Some "python") 1 0 "p");
       ("b.md", mkMeta "b.md" DOCUMENTATION None 2 0 "p")] 1
      = Returned (stats, issued1)
    /\ upload_batches quiet_world
      [("a.py", mkMeta "a.py" CODE (Some "python") 1 0 "p");
       ("b.md", mkMeta "b.md" DOCUMENTATION None 2 0 "p")] 7
      = Returned (stats, issued2)
    /\ concat issued1 = concat issued2
    /\ stats
       = fold_left
           (fun s item =>
              record_result s (item, GValue (_upload_document quiet_world (fst item) (snd item))))
           [("a.py", mkMeta "a.py" CODE (Some "python") 1 0 "p");
            ("b.md", mkMeta "b.md" DOCUMENTATION None 2 0 "p")]
           (mkStats 2 0 0 ∅).
Proof.
  apply (batch_size_irrelevant quiet_world
           [("a.py", mkMeta "a.py" CODE (Some "python") 1 0 "p");
            ("b.md", mkMeta "b.md" DOCUMENTATION None 2 0 "p")] 1%Z 7%Z); lia.
Defined.

Lemma bump_lookup (t k : string) (m : gmap string nat) :
  <[t := default 0 (m !! t) + 1]> m !! k
  = if String.eqb t k then Some (default 0 (m !! k) + 1) else m !! k.
Proof.
  destruct (String.eqb_spec t k) as [->|Hne].
  - apply lookup_insert_eq.
  - now apply lookup_insert_ne.
Qed.

Section Tally.

(** A loop that counts each element as successful or failed and adds one
    to at most one key of [by_type]. *)
Context {A : Type} (succ : A -> bool) (key : A -> option string).
Variable step : IndexingStats -> A -> IndexingStats.
Hypothesis step_spec : forall s a,
  step s a
  = mkStats (total_files s)
      (successful s + (if succ a then 1 else 0))
      (failed s + (if succ a then 0 else 1))
      (match key a with
       | Some t => <[t := default 0 (by_type s !! t) + 1]> (by_type s)
       | None => by_type s
       end).

Let hits (k : string) (a : A) : bool :=
  match key a with
  | Some t => String.eqb t k
  | None => false
  end.

Lemma tally_fold (l : list A) :
  forall s : IndexingStats,
    total_files (fold_left step l s) = total_files s
    /\ successful (fold_left step l s) = successful s + length (List.filter succ l)
    /\ failed (fold_left step l s)
       = failed s + length (List.filter (fun a => negb (succ a)) l)
    /\ forall k : string,
         by_type (fold_left step l s) !! k
         = if length (List.filter (hits k) l) =? 0 then by_type s !! k
           else Some (default 0 (by_type s !! k) + length (List.filter (hits k) l)).
Proof.
  induction l as [|a l IH]; intros s.
  - cbn. split; [|split; [|split]]; try lia. intros k. reflexivity.
  - cbn [fold_left List.filter].
    destruct (IH (step s a)) as (Ht & Hs & Hf & Hk).
    pose proof (step_spec s a) as E.
    split; [rewrite Ht, E; reflexivity|]. split; [|split].
    + rewrite Hs, E. cbn [successful]. destruct (succ a); cbn [length]; lia.
    + rewrite Hf, E. cbn [failed]. destruct (succ a); cbn [negb length]; lia.
    + intros k. rewrite Hk, E. cbn [by_type].
      destruct (hits k a) eqn:Hh; unfold hits in Hh; destruct (key a) as [t|];
        try discriminate Hh.
      * rewrite bump_lookup, Hh. cbn [length].
        destruct (length (List.filter (hits k) l)); simpl; f_equal; lia.
      * rewrite bump_lookup, Hh. reflexivity.
      * reflexivity.
Qed.

End Tally.

Lemma filter_none_in {A : Type} (f : A -> bool) (l : list A) :
  (forall a, In a l -> f a = false) -> List.filter f l = [].
Proof.
  induction l as [|a l IH]; intros Hf; cbn; [reflexivity|].
  rewrite (Hf a) by (cbn; tauto). apply IH. intros b Hb. apply Hf. cbn. tauto.
Qed.

(** The tally of the batched run, key by key. *)
Lemma upload_batches_tally (w : World) (files : list WorkItem) (batch_size : Z) :
  (1 <= batch_size)%Z ->
  exists stats : IndexingStats,
    upload_batches w files batch_size = Returned (stats, batches files (Z.to_nat batch_size))
    /\ successful stats
       = length (List.filter (fun it => _upload_document w (fst it) (snd it)) files)
    /\ failed stats
       = length (List.filter (fun it => negb (_upload_document w (fst it) (snd it))) files)
    /\ forall k : string,
         by_type stats !! k
         = let n := length (List.filter
                              (fun it => _upload_document w (fst it) (snd it)
                                         && String.eqb (value (file_type (snd it))) k)
                              files) in
           if n =? 0 then None else Some n.
Proof.
  intros Hb. rewrite (upload_batches_flat w files batch_size Hb).
  eexists. split; [reflexivity|].
  destruct (tally_fold
              (fun it : WorkItem => _upload_document w (fst it) (snd it))
              (fun it : WorkItem =>
                 if _upload_document w (fst it) (snd it)
                 then Some (value (file_type (snd it))) else None)
              (fun s it => record_result s (it, GValue (_upload_document w (fst it) (snd it))))
              ltac:(intros s [fp md]; cbn;
                    destruct (_upload_document w fp md); cbn;
                    f_equal; lia)
              files (mkStats (length files) 0 0 ∅))
    as (_ & Hs & Hf & Hk).
  cbn [successful failed Nat.add] in Hs, Hf.
  split; [exact Hs|]. split; [exact Hf|].
  intros k. rewrite Hk. cbn [by_type]. rewrite lookup_empty. cbn zeta.
  erewrite (List.filter_ext _
              (fun it : WorkItem => _upload_document w (fst it) (snd it)
                                    && String.eqb (value (file_type (snd it))) k)).
  - destruct (length _); reflexivity.
  - intros [fp md]. cbn. now destruct (_upload_document w fp md).
Qed.

(** X2: what the batched run of [SuperClaudeDocumentProcessor] counts.
    [successful] is the number of work items whose upload succeeded,
    [failed] the number of the others, and [by_type] has for each category
    the number of successfully uploaded items of that category, with no key
    for a category without one and no other key. *)
Theorem index_project_exact_counts :
  forall (w : World) (files : list WorkItem) (batch_size : Z),
    (1 <= batch_size)%Z ->
    exists (stats : IndexingStats) (issued : list (list WorkItem)),
      upload_batches w files batch_size = Returned (stats, issued)
      /\ successful stats
         = length (List.filter (fun it => _upload_document w (fst it) (snd it)) files)
      /\ failed stats
         = length (List.filter (fun it => negb (_upload_document w (fst it) (snd it))) files)
      /\ (forall ty : DocumentType,
            by_type stats !! value ty
            = let n := length (List.filter
                                 (fun it => _upload_document w (fst it) (snd it)
                                            && DocumentType_eqb (file_type (snd it)) ty)
                                 files) in
              if n =? 0 then None else Some n)
      /\ (forall k : string, (forall ty, k <> value ty) -> by_type stats !! k = None).
Proof.
  intros w files batch_size Hb.
  destruct (upload_batches_tally w files batch_size Hb) as (stats & Hrun & Hs & Hf & Hk).
  exists stats, (batches files (Z.to_nat batch_size)).
  split; [exact Hrun|]. split; [exact Hs|]. split; [exact Hf|]. split.
  - intros ty. rewrite Hk. cbn zeta.
    rewrite (List.filter_ext _
               (fun it : WorkItem => _upload_document w (fst it) (snd it)
                                     && DocumentType_eqb (file_type (snd it)) ty));
      [reflexivity|].
    intros [fp md]. cbn. now rewrite value_eqb.
  - intros k Hk'. rewrite Hk. cbn zeta.
    rewrite filter_none_in; [reflexivity|].
    intros [fp md] _. cbn. destruct (_upload_document w fp md); [|reflexivity].
    destruct (String.eqb_spec (value (file_type md)) k) as [E|_]; [|reflexivity].
    exfalso. apply (Hk' (file_type md)). now symmetry.
Qed.

Lemma index_project_exact_counts_witness :
  exists (stats : IndexingStats) (issued : list (list WorkItem)),
    upload_batches rejecting_world
      [("a.py", mkMeta "a.py" CODE (Some "python") 1 0 "p");
       ("b.md", mkMeta "b.md" DOCUMENTATION None 2 0 "p")] 5
      = Returned (stats, issued)
    /\ successful stats = 0
    /\ failed stats = 2.
Proof.
  destruct (index_project_exact_counts rejecting_world
              [("a.py", mkMeta "a.py" CODE (Some "python") 1 0 "p");
               ("b.md", mkMeta "b.md" DOCUMENTATION None 2 0 "p")] 5%Z ltac:(lia))
    as (stats & issued & Hrun & Hs & Hf & _).
  exists stats, issued. split; [exact Hrun|]. split; [exact Hs | exact Hf].
Defined.

(** The tally of the loop of [DocumentProcessor.process_project], key by
    key. *)
Lemma run_files_tally (w : World) (pid : string) (files : list PurePath) :
  let uploaded (p : PurePath) :=
    match DocumentProcessor.metadata_of w pid p with
    | Some md => DocumentProcessor._upload_document w p md
    | None => false
    end in
  let stats := DocumentProcessor.run_files w pid files in
  successful stats = length (List.filter uploaded files)
  /\ failed stats = length (List.filter (fun p => negb (uploaded p)) files)
  /\ forall k : string,
       by_type stats !! k
       = let n := length (List.filter
                            (fun p => match DocumentProcessor.metadata_of w pid p with
                                      | Some md => String.eqb (value (file_type md)) k
                                      | None => false
                                      end) files) in
         if n =? 0 then None else Some n.
Proof.
  intros uploaded stats.
  destruct (tally_fold uploaded
              (fun p => option_map (fun md => value (file_type md))
                          (DocumentProcessor.metadata_of w pid p))
              (DocumentProcessor.process_file w pid)
              ltac:(intros s p; unfold uploaded, DocumentProcessor.process_file,
                      DocumentProcessor.metadata_of, DocumentProcessor.bump;
                    destruct (w_stat_later w p); cbn;
                    [destruct (DocumentProcessor._upload_document w p _); cbn|];
                    f_equal; lia)
              files (mkStats (length files) 0 0 ∅))
    as (_ & Hs & Hf & Hk).
  fold (DocumentProcessor.run_files w pid files) in Hs, Hf, Hk. fold stats in Hs, Hf, Hk.
  cbn [successful failed Nat.add] in Hs, Hf.
  split; [exact Hs|]. split; [exact Hf|].
  intros k. rewrite Hk. cbn [by_type]. rewrite lookup_empty. cbn zeta.
  erewrite (List.filter_ext _
              (fun p => match DocumentProcessor.metadata_of w pid p with
                        | Some md => String.eqb (value (file_type md)) k
                        | None => false
                        end)).
  - destruct (length _); reflexivity.
  - intros p. now destruct (DocumentProcessor.metadata_of w pid p).
Qed.

(** X3: what the loop of [DocumentProcessor.process_project] counts.
    [successful] is the number of files whose metadata could be built and
    whose upload succeeded, [failed] the number of the others, and
    [by_type] has for each category the number of files of that category
    whose metadata could be built, uploaded or not, with no other key. *)
Theorem process_project_exact_counts :
  forall (w : World) (pid : string) (files : list PurePath),
    let uploaded (p : PurePath) :=
      match DocumentProcessor.metadata_of w pid p with
      | Some md => DocumentProcessor._upload_document w p md
      | None => false
      end in
    let stats := DocumentProcessor.run_files w pid files in
    successful stats = length (List.filter uploaded files)
    /\ failed stats = length (List.filter (fun p => negb (uploaded p)) files)
    /\ (forall ty : DocumentType,
          by_type stats !! value ty
          = let n := length (List.filter
                               (fun p => match DocumentProcessor.metadata_of w pid p with
                                         | Some md => DocumentType_eqb (file_type md) ty
                                         | None => false
                                         end) files) in
            if n =? 0 then None else Some n)
    /\ (forall k : string, (forall ty, k <> value ty) -> by_type stats !! k = None).
Proof.
  intros w pid files uploaded stats.
  destruct (run_files_tally w pid files) as (Hs & Hf & Hk).
  fold uploaded in Hs, Hf. fold stats in Hs, Hf, Hk.
  split; [exact Hs|]. split; [exact Hf|]. split.
  - intros ty. rewrite Hk. cbn zeta.
    rewrite (List.filter_ext _
               (fun p => match DocumentProcessor.metadata_of w pid p with
                         | Some md => DocumentType_eqb (file_type md) ty
                         | None => false
                         end)); [reflexivity|].
    intros p. destruct (DocumentProcessor.metadata_of w pid p) as [md|]; [|reflexivity].
    apply value_eqb.
  - intros k Hk'. rewrite Hk. cbn zeta.
    rewrite filter_none_in; [reflexivity|].
    intros p _. destruct (DocumentProcessor.metadata_of w pid p) as [md|]; [|reflexivity].
    destruct (String.eqb_spec (value (file_type md)) k) as [E|_]; [|reflexivity].
    exfalso. apply (Hk' (file_type md)). now symmetry.
Qed.

(** ** Batch sizes that are not positive, and empty selections *)

(** X4: the batch size is not checked.  With batch size 0 the upload loop
    raises the [ValueError] of [range], even for an empty worklist; with a
    negative batch size the range is empty, no batch is issued, and the
    statistics report the whole worklist with nothing successful and nothing
    failed. *)
Theorem nonpositive_batch_size :
  forall (w : World) (pid project_path : string) (patterns : gset string)
         (recursive : bool) (batch_size : Z),
    w_exists w (Path project_path) = Returned true ->
    (batch_size <= 0)%Z ->
    let files := collect_files w pid (Path project_path) patterns recursive in
    (batch_size = 0%Z ->
       index_project w pid project_path patterns recursive batch_size
       = Raised (ValueError "range() arg 3 must not be zero"))
    /\ ((batch_size < 0)%Z ->
       upload_batches w files batch_size = Returned (mkStats (length files) 0 0 ∅, [])
       /\ index_project w pid project_path patterns recursive batch_size
          = Returned (mkStats (length files) 0 0 ∅)).
Proof.
  intros w pid project_path patterns recursive batch_size Hex Hb files.
  unfold index_project. rewrite Hex. cbn [negb]. fold files.
  unfold upload_batches, batch_starts.
  destruct batch_size as [|b|b]; try lia; split; intros H; try lia; try discriminate H.
  - reflexivity.
  - split; reflexivity.
Qed.

Lemma nonpositive_batch_size_witness :
  index_project big_file_world "p" "proj" {["code"]} true (-3)
  = Returned (mkStats 1 0 0 ∅).
Proof.
  destruct (nonpositive_batch_size big_file_world "p" "proj" {["code"]} true (-3)%Z
              ltac:(reflexivity) ltac:(lia)) as [_ Hneg].
  destruct (Hneg ltac:(lia)) as [_ Hidx]. exact Hidx.
Defined.

(** X5: a walk that selects no file is not an error.
    [DocumentProcessor.process_project] returns zero counters with the
    message [No files found to process], and
    [SuperClaudeDocumentProcessor.index_project] returns zero counters for
    every batch size of at least 1, without issuing a batch. *)
Theorem empty_selection :
  (forall (w : World) (pid project_path : string) (project_dir : PurePath)
          (c d g t recursive : bool),
      w_resolve w (Path project_path) = Returned project_dir ->
      w_exists w project_dir = Returned true ->
      DocumentProcessor.collect_files w project_dir c d g t recursive = [] ->
      RAGClient.index_project w pid project_path c d g t recursive
      = StatsDict (mkStats 0 0 0 ∅) (Some "No files found to process"))
  /\ (forall (w : World) (pid project_path : string) (patterns : gset string)
             (recursive : bool) (batch_size : Z),
      w_exists w (Path project_path) = Returned true ->
      (1 <= batch_size)%Z ->
      collect_files w pid (Path project_path) patterns recursive = [] ->
      upload_batches w [] batch_size = Returned (mkStats 0 0 0 ∅, [])
      /\ index_project w pid project_path patterns recursive batch_size
         = Returned (mkStats 0 0 0 ∅)).
Proof.
  split.
  - intros w pid project_path project_dir c d g t recursive Hres Hex Hnone.
    unfold RAGClient.index_project, DocumentProcessor.process_project.
    now rewrite Hres, Hex, Hnone.
  - intros w pid project_path patterns recursive batch_size Hex Hb Hnone.
    assert (Hup : upload_batches w [] batch_size = Returned (mkStats 0 0 0 ∅, [])).
    { unfold upload_batches, batch_starts. destruct batch_size; try lia. reflexivity. }
    split; [exact Hup|].
    unfold index_project. now rewrite Hex, Hnone, Hup.
Qed.

Lemma empty_selection_witness :
  RAGClient.index_project quiet_world "p" "proj" true true false false true
  = StatsDict (mkStats 0 0 0 ∅) (Some "No files found to process")
  /\ index_project quiet_world "p" "proj" {["code"; "docs"]} true 10
     = Returned (mkStats 0 0 0 ∅).
Proof.
  destruct empty_selection as [Hproc Hidx]. split.
  - apply (Hproc quiet_world "p" "proj" (Path "proj")); reflexivity.
  - apply (Hidx quiet_world "p" "proj" {["code"; "docs"]} true 10%Z);
      [reflexivity | lia | reflexivity].
Defined.

(** ** More on the inclusion filters *)

(** X6: asking for more never selects less.  Switching flags on keeps every
    file that [DocumentProcessor._should_include_file] accepted, and a
    larger set of patterns keeps every file that
    [SuperClaudeDocumentProcessor._should_process_file] accepted. *)
Theorem inclusion_is_monotone :
  (forall (w : World) (p : PurePath) (c d g t c' d' g' t' : bool),
      (c = true -> c' = true) -> (d = true -> d' = true) ->
      (g = true -> g' = true) -> (t = true -> t' = true) ->
      DocumentProcessor._should_include_file w p c d g t = true ->
      DocumentProcessor._should_include_file w p c' d' g' t' = true)
  /\ (forall (fp : string) (patterns patterns' : gset string),
      patterns ⊆ patterns' ->
      _should_process_file fp patterns = true ->
      _should_process_file fp patterns' = true).
Proof.
  split.
  - intros w p c d g t c' d' g' t' Hc Hd Hg Ht.
    unfold DocumentProcessor._should_include_file.
    destruct (PyStr.any_in _ _); [discriminate|].
    destruct (w_stat w p) as [st|]; [|discriminate].
    destruct (st_size st >? _)%Z; [discriminate|].
    destruct (DocumentProcessor._classify_document p); cbn;
      destruct c, d, g, t; cbn; try discriminate; intros _;
      try rewrite (Hc eq_refl); try rewrite (Hd eq_refl);
      try rewrite (Hg eq_refl); try rewrite (Ht eq_refl); reflexivity.
  - intros fp patterns patterns' Hsub. unfold _should_process_file.
    destruct (existsb _ _ && negb _); [discriminate|].
    destruct (PyStr.any_in _ _); [discriminate|].
    assert (Hmono : forall k : string,
               bool_decide (k ∈ patterns) = true -> bool_decide (k ∈ patterns') = true).
    { intros k Hk. apply bool_decide_eq_true in Hk. apply bool_decide_eq_true.
      now apply Hsub. }
    destruct (bool_decide ("all" ∈ patterns)) eqn:Hall.
    + intros _. now rewrite (Hmono _ Hall).
    + destruct (bool_decide ("all" ∈ patterns')); [reflexivity|].
      intros H.
      repeat (apply orb_true_iff in H as [H|H]);
        apply andb_true_iff in H as [Hin Hty];
        rewrite (Hmono _ Hin), Hty; cbn; rewrite ?orb_true_r; reflexivity.
Qed.

Lemma inclusion_is_monotone_witness :
  DocumentProcessor._should_include_file quiet_world (Path "src/main.py")
    true true true false = true
  /\ _should_process_file "src/main.py" {["code"; "tests"]} = true.
Proof.
  destruct inclusion_is_monotone as [Hinc Hproc]. split.
  - apply (Hinc quiet_world (Path "src/main.py") true false false false);
      try (intros H; first [reflexivity | discriminate H]).
    vm_compute. reflexivity.
  - apply (Hproc "src/main.py" {["code"]}); [set_solver | vm_compute; reflexivity].
Defined.

(** X7: with everything asked for, only the exclusions decide.  With its
    four flags set, [DocumentProcessor._should_include_file] accepts exactly
    the paths whose string has no deny-list token and whose size can be read
    and is at most 10 MiB (a file of exactly 10 MiB is accepted); with the
    [all] pattern, [SuperClaudeDocumentProcessor._should_process_file]
    accepts exactly the paths that are not hidden (or have an allow-listed
    name) and whose string has no deny-list token. *)
Theorem include_all_leaves_exclusions :
  (forall (w : World) (p : PurePath),
      DocumentProcessor._should_include_file w p true true true true = true
      <-> (forall token, In token DocumentProcessor.exclusions ->
             forall pre post, str p <> pre +:+ token +:+ post)
          /\ exists st, w_stat w p = Some st /\ (st_size st <= 10 * 1024 * 1024)%Z)
  /\ (forall (fp : string) (patterns : gset string),
      "all" ∈ patterns ->
      (_should_process_file fp patterns = true
       <-> ((forall part, In part (parts (Path fp)) -> PyStr.startswith "." part = false)
            \/ In (name (Path fp)) allowed_dotfiles)
           /\ (forall token, In token skip_dirs ->
                 forall pre post, str (Path fp) <> pre +:+ token +:+ post))).
Proof.
  split.
  - intros w p. unfold DocumentProcessor._should_include_file.
    rewrite <- any_in_false_iff.
    destruct (PyStr.any_in _ _).
    { split; [discriminate | intros [H _]; discriminate H]. }
    destruct (w_stat w p) as [st|].
    2:{ split; [discriminate | intros [_ (st & H & _)]; discriminate H]. }
    unfold DocumentProcessor.size_limit.
    destruct (Z.gtb_spec (st_size st) (10 * 1024 * 1024)) as [Hgt|Hle].
    { split; [discriminate | intros [_ (st' & [= <-] & Hle)]; lia]. }
    rewrite !andb_false_r. split; [|reflexivity].
    intros _. split; [reflexivity|]. exists st. split; [reflexivity | exact Hle].
  - intros fp patterns Hall. unfold _should_process_file.
    rewrite <- any_in_false_iff, (bool_decide_eq_true_2 _ Hall).
    assert (Hhid : existsb (PyStr.startswith ".") (parts (Path fp)) = false
                   <-> forall part, In part (parts (Path fp)) ->
                                    PyStr.startswith "." part = false).
    { split.
      - intros Hf part Hin. destruct (PyStr.startswith "." part) eqn:E; [|reflexivity].
        rewrite <- Hf. symmetry. apply existsb_exists. now exists part.
      - intros Hn. destruct (existsb _ _) eqn:E; [|reflexivity].
        apply existsb_exists in E as (part & Hin & Hs). now rewrite (Hn part Hin) in Hs. }
    rewrite <- Hhid, <- mem_In.
    destruct (existsb _ _); destruct (PyStr.mem _ _); destruct (PyStr.any_in _ _); cbn;
      intuition discriminate.
Qed.

Lemma include_all_leaves_exclusions_witness :
  _should_process_file "src/main.py" {["all"]} = true
  <-> ((forall part, In part (parts (Path "src/main.py")) ->
                     PyStr.startswith "." part = false)
       \/ In (name (Path "src/main.py")) allowed_dotfiles)
      /\ (forall token, In token skip_dirs ->
            forall pre post, str (Path "src/main.py") <> pre +:+ token +:+ post).
Proof.
  apply (proj2 include_all_leaves_exclusions "src/main.py" {["all"]}). set_solver.
Defined.

Lemma string_app_assoc (a b c : string) : (a +:+ b) +:+ c = a +:+ b +:+ c.
Proof.
  induction a as [|x a IH]; [reflexivity|].
  change (String x ((a +:+ b) +:+ c) = String x (a +:+ b +:+ c)). now rewrite IH.
Qed.

(** The string of a path ends with its name. *)
Lemma str_ends_with_name (p : PurePath) :
  tail p <> [] -> exists pre, str p = pre +:+ name p.
Proof.
  unfold str, name. destruct (tail p) as [|c cs]; [congruence|]. intros _.
  assert (Hjoin : exists pre, PyStr.join "/" (c :: cs) = pre +:+ List.last (c :: cs) "").
  { revert c. induction cs as [|c' cs IH]; intros c.
    - exists "". reflexivity.
    - destruct (IH c') as [pre Hpre].
      exists (c +:+ "/" +:+ pre).
      change (PyStr.join "/" (c :: c' :: cs)) with (c +:+ "/" +:+ PyStr.join "/" (c' :: cs)).
      change (List.last (c :: c' :: cs) "") with (List.last (c' :: cs) "").
      rewrite Hpre, !string_app_assoc. reflexivity. }
  destruct Hjoin as [pre Hpre]. exists (root p +:+ pre).
  rewrite Hpre, string_app_assoc. reflexivity.
Qed.

(** X8: two of the three allow-listed dotfiles can never be selected.  A
    path whose name is [.gitignore] or [.env.example] passes the hidden-file
    rule but is rejected by the deny-list that follows, because the names
    contain [.git] and [env]. *)
Theorem allowed_dotfiles_shadowed :
  forall (fp : string) (patterns : gset string),
    name (Path fp) = ".gitignore" \/ name (Path fp) = ".env.example" ->
    _should_process_file fp patterns = false.
Proof.
  intros fp patterns Hname. apply skipped_by_substring.
  assert (Htail : tail (Path fp) <> []).
  { intros E. unfold name in Hname. rewrite E in Hname. cbn in Hname.
    destruct Hname as [H|H]; discriminate H. }
  destruct (str_ends_with_name (Path fp) Htail) as [pre Hstr].
  rewrite Hstr. destruct Hname as [-> | ->].
  - apply any_in_intro with ".git"; [cbn; tauto|].
    apply (contains_app ".git" pre "ignore").
  - apply any_in_intro with "env"; [cbn; tauto|].
    change ".env.example" with ("." +:+ "env" +:+ ".example").
    rewrite <- string_app_assoc. apply contains_app.
Qed.

Lemma allowed_dotfiles_shadowed_witness :
  _should_process_file "/home/u/proj/.gitignore" {["all"]} = false.
Proof.
  apply (allowed_dotfiles_shadowed "/home/u/proj/.gitignore" {["all"]}).
  left. reflexivity.
Defined.

(** X9: the patterns that [SuperClaudeRAGClient.index_project] builds.
    Each flag puts its own pattern in, [all] is put in exactly when the four
    flags are false; so with no flag the filter accepts whatever the [all]
    pattern accepts, and with some flag it accepts the paths that pass the
    exclusions and whose category has its flag set. *)
Theorem client_patterns :
  forall c d g t : bool,
    let ps := SuperClaudeRAGClient.include_patterns_of c d g t in
    bool_decide ("code" ∈ ps) = c
    /\ bool_decide ("docs" ∈ ps) = d
    /\ bool_decide ("configs" ∈ ps) = g
    /\ bool_decide ("tests" ∈ ps) = t
    /\ bool_decide ("all" ∈ ps) = negb (c || d || g || t)
    /\ forall fp : string,
         _should_process_file fp ps
         = _should_process_file fp {["all"]}
           && (negb (c || d || g || t)
               || let ty := _get_file_type (str (Path fp)) in
                  (c && DocumentType_eqb ty CODE) || (d && DocumentType_eqb ty DOCUMENTATION)
                  || (g && DocumentType_eqb ty CONFIGURATION) || (t && DocumentType_eqb ty TEST)).
Proof.
  intros c d g t ps.
  assert (Hc : bool_decide ("code" ∈ ps) = c) by (destruct c, d, g, t; vm_compute; reflexivity).
  assert (Hd : bool_decide ("docs" ∈ ps) = d) by (destruct c, d, g, t; vm_compute; reflexivity).
  assert (Hg : bool_decide ("configs" ∈ ps) = g) by (destruct c, d, g, t; vm_compute; reflexivity).
  assert (Ht : bool_decide ("tests" ∈ ps) = t) by (destruct c, d, g, t; vm_compute; reflexivity).
  assert (Ha : bool_decide ("all" ∈ ps) = negb (c || d || g || t))
    by (destruct c, d, g, t; vm_compute; reflexivity).
  repeat (split; [assumption|]).
  intros fp. unfold _should_process_file. rewrite Hc, Hd, Hg, Ht, Ha.
  rewrite (bool_decide_eq_true_2 ("all" ∈ ({["all"]} : gset string))) by set_solver.
  destruct (existsb _ _ && negb _); [reflexivity|].
  destruct (PyStr.any_in _ _); [reflexivity|].
  cbn zeta. destruct (negb (c || d || g || t)); reflexivity.
Qed.

(** ** The classifiers *)

(** X10: a test pattern anywhere in the lower-cased path string makes the
    file a test file, whatever its extension says; both classifiers. *)
Theorem test_pattern_wins :
  (forall (p : PurePath) (pat pre post : string),
      In pat DocumentProcessor.test_patterns ->
      PyStr.lower (str p) = pre +:+ pat +:+ post ->
      DocumentProcessor._classify_document p = TEST)
  /\ (forall (fp pat pre post : string),
      In pat test_patterns ->
      PyStr.lower (str (Path fp)) = pre +:+ pat +:+ post ->
      _get_file_type fp = TEST).
Proof.
  split.
  - intros p pat pre post Hin Hstr. unfold DocumentProcessor._classify_document.
    rewrite (any_in_intro _ pat _ Hin); [reflexivity|].
    rewrite Hstr. apply contains_app.
  - intros fp pat pre post Hin Hstr. unfold _get_file_type.
    rewrite (any_in_intro _ pat _ Hin); [reflexivity|].
    rewrite Hstr. apply contains_app.
Qed.

Lemma test_pattern_wins_witness :
  DocumentProcessor._classify_document (Path "src/Latest_Report.py") = TEST
  /\ _get_file_type "docs/spec/overview.md" = TEST.
Proof.
  destruct test_pattern_wins as [Hdoc Hsc]. split.
  - apply (Hdoc (Path "src/Latest_Report.py") "test_" "src/la" "report.py").
    + cbn. tauto.
    + reflexivity.
  - apply (Hsc "docs/spec/overview.md" "spec/" "docs/" "overview.md").
    + cbn. tauto.
    + reflexivity.
Defined.

Lemma processor_tables_disjoint (e : string) :
  (PyStr.mem e DocumentProcessor.code_extensions = true ->
     PyStr.mem e DocumentProcessor.doc_extensions = false
     /\ PyStr.mem e DocumentProcessor.config_extensions = false)
  /\ (PyStr.mem e DocumentProcessor.doc_extensions = true ->
     PyStr.mem e DocumentProcessor.config_extensions = false).
Proof.
  split; intros H; apply mem_In in H; cbn in H;
    repeat (destruct H as [<- | H]; [repeat split; reflexivity|]); contradiction.
Qed.

Lemma superclaude_tables_disjoint (e : string) :
  (PyStr.mem e code_extensions = true ->
     PyStr.mem e doc_extensions = false /\ PyStr.mem e config_extensions = false)
  /\ (PyStr.mem e doc_extensions = true -> PyStr.mem e config_extensions = false).
Proof.
  split; intros H; apply mem_In in H; cbn in H;
    repeat (destruct H as [<- | H]; [repeat split; reflexivity|]); contradiction.
Qed.

(** X11: the three extension tables of each classifier are pairwise
    disjoint, so for a path without test pattern the category says in which
    table the lower-cased extension is, whatever order the tables are looked
    up in: code, documentation, configuration, and [OTHER] for an extension
    in none of them. *)
Theorem category_is_the_table :
  (forall p : PurePath,
      (forall pat, In pat DocumentProcessor.test_patterns ->
         forall pre post, PyStr.lower (str p) <> pre +:+ pat +:+ post) ->
      let ext := PyStr.lower (suffix p) in
      let ty := DocumentProcessor._classify_document p in
      (ty = CODE <-> In ext DocumentProcessor.code_extensions)
      /\ (ty = DOCUMENTATION <-> In ext DocumentProcessor.doc_extensions)
      /\ (ty = CONFIGURATION <-> In ext DocumentProcessor.config_extensions)
      /\ (ty = OTHER <-> ~ In ext DocumentProcessor.code_extensions
                         /\ ~ In ext DocumentProcessor.doc_extensions
                         /\ ~ In ext DocumentProcessor.config_extensions))
  /\ (forall fp : string,
      (forall pat, In pat test_patterns ->
         forall pre post, PyStr.lower (str (Path fp)) <> pre +:+ pat +:+ post) ->
      let ext := PyStr.lower (suffix (Path fp)) in
      let ty := _get_file_type fp in
      (ty = CODE <-> In ext code_extensions)
      /\ (ty = DOCUMENTATION <-> In ext doc_extensions)
      /\ (ty = CONFIGURATION <-> In ext config_extensions)
      /\ (ty = OTHER <-> ~ In ext code_extensions /\ ~ In ext doc_extensions
                         /\ ~ In ext config_extensions)).
Proof.
  split.
  - intros p Hno ext ty. subst ty. unfold DocumentProcessor._classify_document.
    apply any_in_false_iff in Hno. rewrite Hno. fold ext.
    rewrite <- !mem_In.
    destruct (processor_tables_disjoint ext) as [Hcode Hdoc].
    destruct (PyStr.mem ext DocumentProcessor.code_extensions).
    { destruct (Hcode eq_refl) as [-> ->]. intuition (discriminate || congruence). }
    destruct (PyStr.mem ext DocumentProcessor.doc_extensions).
    { rewrite (Hdoc eq_refl). intuition (discriminate || congruence). }
    destruct (PyStr.mem ext DocumentProcessor.config_extensions);
      intuition (discriminate || congruence).
  - intros fp Hno ext ty. subst ty. unfold _get_file_type.
    apply any_in_false_iff in Hno. rewrite Hno. fold ext.
    rewrite <- !mem_In.
    destruct (superclaude_tables_disjoint ext) as [Hcode Hdoc].
    destruct (PyStr.mem ext code_extensions).
    { destruct (Hcode eq_refl) as [-> ->]. intuition (discriminate || congruence). }
    destruct (PyStr.mem ext doc_extensions).
    { rewrite (Hdoc eq_refl). intuition (discriminate || congruence). }
    destruct (PyStr.mem ext config_extensions);
      intuition (discriminate || congruence).
Qed.

Lemma category_is_the_table_witness :
  DocumentProcessor._classify_document (Path "docs/guide.rst") = DOCUMENTATION
  <-> In (PyStr.lower (suffix (Path "docs/guide.rst"))) DocumentProcessor.doc_extensions.
Proof.
  apply (proj1 category_is_the_table (Path "docs/guide.rst")).
  apply any_in_false_iff. vm_compute. reflexivity.
Defined.

(** ** Path strings *)

Lemma string_app_nil_r (a : string) : a +:+ "" = a.
Proof.
  induction a as [|x a IH]; [reflexivity|].
  change (String x (a +:+ "") = String x a). now rewrite IH.
Qed.

Lemma list_ascii_app (a b : string) :
  list_ascii_of_string (a +:+ b) = list_ascii_of_string a ++ list_ascii_of_string b.
Proof.
  induction a as [|x a IH]; [reflexivity|].
  change (x :: list_ascii_of_string (a +:+ b) = x :: (list_ascii_of_string a ++ list_ascii_of_string b)).
  now rewrite IH.
Qed.

(** A piece without separator is split off whole. *)
Lemma split_aux_piece (sep : ascii) (c : string) :
  (forall x, In x (list_ascii_of_string c) -> x <> sep) ->
  forall cur rest,
    PyStr.split_aux sep cur (c +:+ String sep rest)
    = (cur +:+ c) :: PyStr.split_aux sep "" rest
    /\ PyStr.split_aux sep cur c = [cur +:+ c].
Proof.
  induction c as [|x c IH]; intros Hc cur rest.
  - rewrite string_app_nil_r. change ("" +:+ String sep rest) with (String sep rest).
    cbn [PyStr.split_aux]. rewrite Ascii.eqb_refl. split; reflexivity.
  - assert (Hx : Ascii.eqb x sep = false).
    { apply Ascii.eqb_neq. apply Hc. cbn. tauto. }
    assert (Hc' : forall y, In y (list_ascii_of_string c) -> y <> sep).
    { intros y Hy. apply Hc. cbn. tauto. }
    change (String x c +:+ String sep rest) with (String x (c +:+ String sep rest)).
    cbn [PyStr.split_aux]. rewrite Hx.
    destruct (IH Hc' (cur +:+ String x "") rest) as [E1 E2].
    rewrite E1, E2, string_app_assoc. split; reflexivity.
Qed.

Lemma split_join (cs : list string) :
  Forall (fun c => forall x, In x (list_ascii_of_string c) -> x <> "/"%char) cs ->
  cs <> [] ->
  PyStr.split "/" (PyStr.join "/" cs) = cs.
Proof.
  unfold PyStr.split. induction cs as [|c cs IH]; intros Hall Hne; [congruence|].
  apply Forall_cons in Hall as [Hc Hcs].
  destruct cs as [|c' cs].
  - cbn [PyStr.join]. now rewrite (proj2 (split_aux_piece "/" c Hc "" "")).
  - change (PyStr.join "/" (c :: c' :: cs))
      with (c +:+ String "/" (PyStr.join "/" (c' :: cs))).
    rewrite (proj1 (split_aux_piece "/" c Hc "" _)).
    rewrite IH by (assumption || congruence). reflexivity.
Qed.

Lemma split_aux_pieces (sep : ascii) (s : string) :
  forall cur,
    (forall x, In x (list_ascii_of_string cur) -> x <> sep) ->
    Forall (fun c => forall x, In x (list_ascii_of_string c) -> x <> sep)
           (PyStr.split_aux sep cur s).
Proof.
  induction s as [|a s IH]; intros cur Hcur; cbn [PyStr.split_aux].
  - apply Forall_cons. split; [exact Hcur | apply Forall_nil; exact I].
  - destruct (Ascii.eqb_spec a sep) as [->|Hne].
    + apply Forall_cons. split; [exact Hcur|]. apply IH. intros x [].
    + apply IH. intros x Hx. rewrite list_ascii_app in Hx.
      apply in_app_or in Hx as [Hx|Hx]; [now apply Hcur|].
      cbn in Hx. destruct Hx as [<-|[]]. exact Hne.
Qed.

Lemma filter_all {A : Type} (f : A -> bool) (l : list A) :
  Forall (fun a => f a = true) l -> List.filter f l = l.
Proof.
  induction 1 as [|a l Ha _ IH]; cbn; [reflexivity|]. now rewrite Ha, IH.
Qed.

(** What [Path] keeps of a string: a root that is empty, [/] or [//], and
    components that are not empty, not [.] and have no slash. *)
Lemma Path_root (s : string) :
  root (Path s) = "" \/ root (Path s) = "/" \/ root (Path s) = "//".
Proof.
  unfold Path. cbn [root].
  destruct (PyStr.startswith "/" s); [|tauto].
  destruct (PyStr.startswith "//" s && negb (PyStr.startswith "///" s)); tauto.
Qed.

Lemma Path_tail (s : string) :
  Forall (fun c => keep_component c = true
                   /\ forall x, In x (list_ascii_of_string c) -> x <> "/"%char)
         (tail (Path s)).
Proof.
  unfold Path. cbn [tail]. apply List.Forall_forall. intros c Hc.
  apply filter_In in Hc as [Hin Hkeep]. split; [exact Hkeep|].
  pose proof (split_aux_pieces "/" s "" ltac:(intros x [])) as Hall.
  rewrite List.Forall_forall in Hall. now apply Hall.
Qed.

Lemma join_starts (c : string) (cs : list string) :
  keep_component c = true ->
  (forall x, In x (list_ascii_of_string c) -> x <> "/"%char) ->
  PyStr.startswith "/" (PyStr.join "/" (c :: cs)) = false.
Proof.
  intros Hkeep Hc. destruct c as [|x c]; [discriminate Hkeep|].
  assert (Hx : Ascii.eqb "/" x = false).
  { apply Ascii.eqb_neq. intros E. apply (Hc x); [cbn; tauto | now symmetry]. }
  destruct cs as [|c' cs].
  - cbn [PyStr.join PyStr.startswith]. now rewrite Hx.
  - change (PyStr.join "/" (String x c :: c' :: cs))
      with (String x (c +:+ "/" +:+ PyStr.join "/" (c' :: cs))).
    cbn [PyStr.startswith]. now rewrite Hx.
Qed.

Lemma startswith_cons (a b : ascii) (p s : string) :
  PyStr.startswith (String a p) (String b s) = Ascii.eqb a b && PyStr.startswith p s.
Proof. reflexivity. Qed.

Lemma startswith_nil (s : string) : PyStr.startswith "" s = true.
Proof. reflexivity. Qed.

Lemma Path_str_wf (r : string) (t : list string) :
  r = "" \/ r = "/" \/ r = "//" ->
  Forall (fun c => keep_component c = true
                   /\ forall x, In x (list_ascii_of_string c) -> x <> "/"%char) t ->
  Path (str (mkPath r t)) = mkPath r t.
Proof.
  intros Hr Ht. destruct t as [|c cs].
  - destruct Hr as [-> | [-> | ->]]; reflexivity.
  - assert (Hkeep : Forall (fun c => keep_component c = true) (c :: cs)).
    { eapply Forall_impl; [exact Ht|]. now intros a [Ha _]. }
    assert (Hslash : Forall (fun c => forall x, In x (list_ascii_of_string c) -> x <> "/"%char)
                       (c :: cs)).
    { eapply Forall_impl; [exact Ht|]. now intros a [_ Ha]. }
    pose proof (split_join (c :: cs) Hslash ltac:(congruence)) as Hsplit.
    apply Forall_cons in Ht as [[Hc1 Hc2] _].
    pose proof (join_starts c cs Hc1 Hc2) as Hstart.
    unfold str. cbn [tail root].
    set (J := PyStr.join "/" (c :: cs)) in *.
    unfold PyStr.split in Hsplit. clearbody J.
    destruct Hr as [-> | [-> | ->]]; unfold Path.
    + change ("" +:+ J) with J. rewrite Hstart. f_equal.
      unfold PyStr.split. rewrite Hsplit. now apply filter_all.
    + change ("/" +:+ J) with (String "/" J). f_equal.
      * rewrite !startswith_cons, !startswith_nil, !Ascii.eqb_refl, Hstart. reflexivity.
      * unfold PyStr.split. cbn [PyStr.split_aux]. rewrite Ascii.eqb_refl, Hsplit.
        change (List.filter keep_component ("" :: c :: cs))
          with (List.filter keep_component (c :: cs)).
        now apply filter_all.
    + change ("//" +:+ J) with (String "/" (String "/" J)). f_equal.
      * rewrite !startswith_cons, !startswith_nil, !Ascii.eqb_refl, Hstart. reflexivity.
      * unfold PyStr.split. cbn [PyStr.split_aux]. rewrite !Ascii.eqb_refl, Hsplit.
        change (List.filter keep_component ("" :: "" :: c :: cs))
          with (List.filter keep_component (c :: cs)).
        now apply filter_all.
Qed.

(** Parsing the string of a parsed path gives the same path. *)
Lemma Path_str_Path (s : string) : Path (str (Path s)) = Path s.
Proof.
  pose proof (Path_root s) as Hr. pose proof (Path_tail s) as Ht.
  destruct (Path s) as [r t]. cbn [root tail] in Hr, Ht. now apply Path_str_wf.
Qed.

(** ** What gets into the worklist *)


(** The category that the filter of [SuperClaudeDocumentProcessor] gates on
    is the one that goes into the metadata: the filter parses the string of
    the path once more, which changes nothing. *)
Lemma enumerate_file_category (w : World) (pid : string) (patterns : gset string)
    (s : string) (item : WorkItem) :
  "all" ∉ patterns ->
  In item (enumerate_file w pid patterns (Path s)) ->
  (file_type (snd item) = CODE /\ "code" ∈ patterns)
  \/ (file_type (snd item) = DOCUMENTATION /\ "docs" ∈ patterns)
  \/ (file_type (snd item) = CONFIGURATION /\ "configs" ∈ patterns)
  \/ (file_type (snd item) = TEST /\ "tests" ∈ patterns).
Proof.
  intros Hall Hin. unfold enumerate_file in Hin.
  destruct (w_is_file w (Path s)); [|contradiction]. cbn [andb] in Hin.
  destruct (_should_process_file (str (Path s)) patterns) eqn:Hsel; [|contradiction].
  destruct (w_stat w (Path s)) as [st|]; [|contradiction].
  destruct Hin as [<- | []]. cbn [snd file_type].
  unfold _should_process_file in Hsel. rewrite Path_str_Path in Hsel.
  destruct (existsb _ _ && negb _); [discriminate|].
  destruct (PyStr.any_in _ _); [discriminate|].
  rewrite (bool_decide_eq_false_2 _ Hall) in Hsel.
  repeat (apply orb_true_iff in Hsel as [Hsel|Hsel]);
    apply andb_true_iff in Hsel as [Hp Hty];
    apply bool_decide_eq_true in Hp; apply DocumentType_eqb_eq in Hty; tauto.
Qed.

(** X12: without the [all] pattern, the worklist of
    [SuperClaudeDocumentProcessor] holds only files of the categories asked
    for (never [OTHER]), and the statistics of the run report no other
    category in [by_type].  The paths of the enumeration are parsed paths. *)
Theorem worklist_respects_patterns :
  forall (w : World) (pid project_path : string) (patterns : gset string)
         (recursive : bool) (batch_size : Z),
    (forall pattern p, In p (w_glob w (Path project_path) pattern) -> exists s, p = Path s) ->
    w_exists w (Path project_path) = Returned true ->
    (1 <= batch_size)%Z ->
    "all" ∉ patterns ->
    (forall item, In item (collect_files w pid (Path project_path) patterns recursive) ->
       (file_type (snd item) = CODE /\ "code" ∈ patterns)
       \/ (file_type (snd item) = DOCUMENTATION /\ "docs" ∈ patterns)
       \/ (file_type (snd item) = CONFIGURATION /\ "configs" ∈ patterns)
       \/ (file_type (snd item) = TEST /\ "tests" ∈ patterns))
    /\ exists stats : IndexingStats,
         index_project w pid project_path patterns recursive batch_size = Returned stats
         /\ by_type stats !! "other" = None
         /\ ("code" ∉ patterns -> by_type stats !! "code" = None)
         /\ ("docs" ∉ patterns -> by_type stats !! "documentation" = None)
         /\ ("configs" ∉ patterns -> by_type stats !! "configuration" = None)
         /\ ("tests" ∉ patterns -> by_type stats !! "test" = None).
Proof.
  intros w pid project_path patterns recursive batch_size Hglob Hex Hb Hall.
  assert (Hitems : forall item,
             In item (collect_files w pid (Path project_path) patterns recursive) ->
             (file_type (snd item) = CODE /\ "code" ∈ patterns)
             \/ (file_type (snd item) = DOCUMENTATION /\ "docs" ∈ patterns)
             \/ (file_type (snd item) = CONFIGURATION /\ "configs" ∈ patterns)
             \/ (file_type (snd item) = TEST /\ "tests" ∈ patterns)).
  { intros item Hin. unfold collect_files in Hin.
    apply in_flat_map in Hin as (p & Hp & Hitem).
    destruct (Hglob _ _ Hp) as [s ->].
    exact (enumerate_file_category w pid patterns s item Hall Hitem). }
  split; [exact Hitems|].
  destruct (upload_batches_tally w
              (collect_files w pid (Path project_path) patterns recursive) batch_size Hb)
    as (stats & Hrun & _ & _ & Hty).
  exists stats. split.
  { unfold index_project. now rewrite Hex, Hrun. }
  assert (Hnone : forall ty : DocumentType,
             (forall item, In item (collect_files w pid (Path project_path) patterns recursive) ->
                file_type (snd item) <> ty) ->
             by_type stats !! value ty = None).
  { intros ty Hno. rewrite Hty. cbn zeta. rewrite filter_none_in; [reflexivity|].
    intros item Hin. apply andb_false_iff. right. rewrite value_eqb.
    destruct (DocumentType_eqb (file_type (snd item)) ty) eqn:E; [|reflexivity].
    apply DocumentType_eqb_eq in E. now destruct (Hno item Hin). }
  split; [|split; [|split; [|split]]].
  - apply (Hnone OTHER). intros item Hin E.
    destruct (Hitems item Hin) as [[H _]|[[H _]|[[H _]|[H _]]]]; congruence.
  - intros Hp. apply (Hnone CODE). intros item Hin E.
    destruct (Hitems item Hin) as [[H H']|[[H _]|[[H _]|[H _]]]]; first [congruence | contradiction].
  - intros Hp. apply (Hnone DOCUMENTATION). intros item Hin E.
    destruct (Hitems item Hin) as [[H _]|[[H H']|[[H _]|[H _]]]]; first [congruence | contradiction].
  - intros Hp. apply (Hnone CONFIGURATION). intros item Hin E.
    destruct (Hitems item Hin) as [[H _]|[[H _]|[[H H']|[H _]]]]; first [congruence | contradiction].
  - intros Hp. apply (Hnone TEST). intros item Hin E.
    destruct (Hitems item Hin) as [[H _]|[[H _]|[[H _]|[H H']]]]; first [congruence | contradiction].
Qed.

Lemma worklist_respects_patterns_witness :
  exists stats : IndexingStats,
    index_project big_file_world "p" "proj" {["docs"]} true 10 = Returned stats
    /\ by_type stats !! "code" = None.
Proof.
  destruct (worklist_respects_patterns big_file_world "p" "proj" {["docs"]} true 10%Z)
    as (_ & stats & Hrun & _ & Hcode & _).
  - intros pattern p [<- | []]. now exists "proj/big.py".
  - reflexivity.
  - lia.
  - set_solver.
  - exists stats. split; [exact Hrun|]. apply Hcode. set_solver.
Defined.

(** X13: [DocumentProcessor] selects a file of category code,
    documentation, configuration or test only when the flag of that
    category is set, and the statistics of the run have no [by_type] entry
    for a category whose flag is not set. *)
Theorem worklist_respects_flags :
  forall (w : World) (pid : string) (project_dir : PurePath) (c d g t recursive : bool),
    let files := DocumentProcessor.collect_files w project_dir c d g t recursive in
    let stats := DocumentProcessor.run_files w pid files in
    (forall p, In p files ->
       In p (w_glob w project_dir (if recursive then "**/*" else "*"))
       /\ w_is_file w p = true
       /\ (DocumentProcessor._classify_document p = CODE -> c = true)
       /\ (DocumentProcessor._classify_document p = DOCUMENTATION -> d = true)
       /\ (DocumentProcessor._classify_document p = CONFIGURATION -> g = true)
       /\ (DocumentProcessor._classify_document p = TEST -> t = true))
    /\ (c = false -> by_type stats !! "code" = None)
    /\ (d = false -> by_type stats !! "documentation" = None)
    /\ (g = false -> by_type stats !! "configuration" = None)
    /\ (t = false -> by_type stats !! "test" = None).
Proof.
  intros w pid project_dir c d g t recursive files stats.
  assert (Hfiles : forall p, In p files ->
       In p (w_glob w project_dir (if recursive then "**/*" else "*"))
       /\ w_is_file w p = true
       /\ (DocumentProcessor._classify_document p = CODE -> c = true)
       /\ (DocumentProcessor._classify_document p = DOCUMENTATION -> d = true)
       /\ (DocumentProcessor._classify_document p = CONFIGURATION -> g = true)
       /\ (DocumentProcessor._classify_document p = TEST -> t = true)).
  { intros p Hin. unfold files, DocumentProcessor.collect_files in Hin.
    apply filter_In in Hin as [Hglob Hsel].
    apply andb_true_iff in Hsel as [Hfile Hsel].
    split; [exact Hglob|]. split; [exact Hfile|].
    unfold DocumentProcessor._should_include_file in Hsel.
    destruct (PyStr.any_in _ _); [discriminate|].
    destruct (w_stat w p) as [st|]; [|discriminate].
    destruct (st_size st >? _)%Z; [discriminate|].
    destruct (DocumentProcessor._classify_document p); cbn in Hsel;
      destruct c, d, g, t; cbn in Hsel; try discriminate Hsel;
      repeat split; intros; first [reflexivity | discriminate]. }
  split; [exact Hfiles|].
  destruct (run_files_tally w pid files) as (_ & _ & Hty).
  fold stats in Hty.
  assert (Hnone : forall ty : DocumentType,
             (forall p, In p files -> DocumentProcessor._classify_document p <> ty) ->
             by_type stats !! value ty = None).
  { intros ty Hno. rewrite Hty. cbn zeta. rewrite filter_none_in; [reflexivity|].
    intros p Hin. unfold DocumentProcessor.metadata_of.
    destruct (w_stat_later w p); [|reflexivity]. cbn [file_type]. rewrite value_eqb.
    destruct (DocumentType_eqb _ ty) eqn:E; [|reflexivity].
    apply DocumentType_eqb_eq in E. now destruct (Hno p Hin). }
  split; [|split; [|split]]; intros Hflag.
  - apply (Hnone CODE). intros p Hin E.
    destruct (Hfiles p Hin) as (_ & _ & H & _). specialize (H E). congruence.
  - apply (Hnone DOCUMENTATION). intros p Hin E.
    destruct (Hfiles p Hin) as (_ & _ & _ & H & _). specialize (H E). congruence.
  - apply (Hnone CONFIGURATION). intros p Hin E.
    destruct (Hfiles p Hin) as (_ & _ & _ & _ & H & _). specialize (H E). congruence.
  - apply (Hnone TEST). intros p Hin E.
    destruct (Hfiles p Hin) as (_ & _ & _ & _ & _ & H). specialize (H E). congruence.
Qed.

Lemma worklist_respects_flags_witness :
  by_type (DocumentProcessor.run_files makefile_world "p"
             (DocumentProcessor.collect_files makefile_world (Path "proj")
                false true true true true))
    !! "code" = None.
Proof.
  destruct (worklist_respects_flags makefile_world "p" (Path "proj")
              false true true true true) as (_ & Hcode & _).
  apply Hcode. reflexivity.
Defined.

(** ** Uploading one file *)

(** X14: [process_single_file] and the loop of [process_project] treat a
    file alike.  When [exists()] says that the file is there, the call
    returns, and it returns [True] exactly when one turn of the loop counts
    the file as successful; when [exists()] says that it is not there, the
    call returns [False]; what [exists()] raises escapes, the test being
    outside the [try].  It asks no inclusion filter: a path that every walk
    rejects, such as one with [env] in its name, is uploaded. *)
Theorem single_file_like_loop :
  forall (w : World) (pid file_path : string) (stats : IndexingStats),
    (w_exists w (Path file_path) = Returned false ->
       SingleFile.process_single_file w pid file_path = Returned false)
    /\ (forall e, w_exists w (Path file_path) = Raised e ->
       SingleFile.process_single_file w pid file_path = Raised e)
    /\ (w_exists w (Path file_path) = Returned true ->
       exists b : bool,
         SingleFile.process_single_file w pid file_path = Returned b
         /\ (b = true
             <-> successful (DocumentProcessor.process_file w pid stats (Path file_path))
                 = successful stats + 1)
         /\ (b = false
             <-> failed (DocumentProcessor.process_file w pid stats (Path file_path))
                 = failed stats + 1))
    /\ (forall c d g t : bool,
          DocumentProcessor._should_include_file quiet_world (Path "src/environment.py")
            c d g t = false)
    /\ SingleFile.process_single_file quiet_world pid "src/environment.py" = Returned true.
Proof.
  intros w pid file_path stats.
  unfold SingleFile.process_single_file, DocumentProcessor.process_file.
  split; [intros ->; reflexivity|]. split; [intros e ->; reflexivity|]. split; [|split].
  - intros ->.
    destruct (w_stat_later w (Path file_path)) as [st|]; cbn.
    + destruct (DocumentProcessor._upload_document w (Path file_path) _) eqn:Hup;
        [exists true | exists false]; cbn;
        (split; [reflexivity|]); split; split; intros H;
        first [reflexivity | discriminate H | lia].
    + exists false. split; [reflexivity|].
      split; split; intros H; first [reflexivity | discriminate H | lia].
  - intros c d g t. apply excluded_by_substring. reflexivity.
  - reflexivity.
Qed.

Lemma single_file_like_loop_witness :
  exists b : bool,
    SingleFile.process_single_file rejecting_world "p" "src/main.py" = Returned b
    /\ (b = true
        <-> successful (DocumentProcessor.process_file rejecting_world "p" (mkStats 1 0 0 ∅)
                          (Path "src/main.py")) = 0 + 1)
    /\ (b = false
        <-> failed (DocumentProcessor.process_file rejecting_world "p" (mkStats 1 0 0 ∅)
                      (Path "src/main.py")) = 0 + 1).
Proof.
  destruct (single_file_like_loop rejecting_world "p" "src/main.py" (mkStats 1 0 0 ∅))
    as (_ & _ & H & _).
  exact (H ltac:(reflexivity)).
Defined.

(** ** Searching with [RAGClient] *)

(** X15: the request that [RAGClient.search] sends and what it returns.
    The body always has the query, the limit, the mode and a project id,
    which is the client's own when none or the empty string is given; it has
    [file_types] (and [languages]) only for a list that is not empty.  The
    result is the body of a 200 answer, and the empty list for every other
    status, for a body that is not JSON and for a failed request. *)
Theorem client_search_request :
  forall (svc : Service) (cfg query : string) (mode : SearchMode) (limit : Z)
         (file_types languages : option (list string)) (project_id : option string),
    let d := ClientSearch.search_data cfg query mode limit file_types languages project_id in
    let r := ClientSearch.search svc cfg query mode limit file_types languages project_id in
    d !! "query" = Some (JStr query)
    /\ d !! "limit" = Some (JNum limit)
    /\ d !! "mode" = Some (JStr (mode_value mode))
    /\ (project_id = None \/ project_id = Some "" -> d !! "project_id" = Some (JStr cfg))
    /\ (forall s, project_id = Some s -> s <> "" -> d !! "project_id" = Some (JStr s))
    /\ (file_types = None \/ file_types = Some [] -> d !! "file_types" = None)
    /\ (forall x xs, file_types = Some (x :: xs) ->
          d !! "file_types" = Some (JList (map JStr (x :: xs))))
    /\ (languages = None \/ languages = Some [] -> d !! "languages" = None)
    /\ (forall x xs, languages = Some (x :: xs) ->
          d !! "languages" = Some (JList (map JStr (x :: xs))))
    /\ (forall j, post_search svc d = Body 200 (Some j) -> r = j)
    /\ (post_search svc d = Body 200 None -> r = JList [])
    /\ (forall status content, post_search svc d = Body status content ->
          status <> 200%Z -> r = JList [])
    /\ (post_search svc d = Failed -> r = JList []).
Proof.
  intros svc cfg query mode limit file_types languages project_id d r.
  subst d r. unfold ClientSearch.search, ClientSearch.search_data.
  repeat split.
  - destruct (nonempty languages), (nonempty file_types); now simplify_map_eq.
  - destruct (nonempty languages), (nonempty file_types); now simplify_map_eq.
  - destruct (nonempty languages), (nonempty file_types); now simplify_map_eq.
  - intros [-> | ->]; cbn [str_or String.eqb];
      destruct (nonempty languages), (nonempty file_types); now simplify_map_eq.
  - intros s -> Hs. cbn [str_or].
    destruct (String.eqb_spec s "") as [E|_]; [contradiction|].
    destruct (nonempty languages), (nonempty file_types); now simplify_map_eq.
  - intros [-> | ->]; cbn [nonempty];
      destruct (nonempty languages); now simplify_map_eq.
  - intros x xs ->. cbn [nonempty]. destruct (nonempty languages); now simplify_map_eq.
  - intros [-> | ->]; cbn [nonempty];
      destruct (nonempty file_types); now simplify_map_eq.
  - intros x xs ->. cbn [nonempty]. destruct (nonempty file_types); now simplify_map_eq.
  - intros j ->. reflexivity.
  - intros ->. reflexivity.
  - intros status content -> Hne.
    destruct (Z.eqb_spec status 200) as [E|_]; [contradiction | reflexivity].
  - intros ->. reflexivity.
Qed.

Lemma client_search_request_witness :
  ClientSearch.search_data "default" "auth" SEMANTIC 5 (Some []) None (Some "")
    !! "project_id" = Some (JStr "default")
  /\ ClientSearch.search_data "default" "auth" SEMANTIC 5 (Some []) None (Some "")
    !! "file_types" = None.
Proof.
  destruct (client_search_request empty_service "default" "auth" SEMANTIC 5
              (Some []) None (Some "")) as (_ & _ & _ & Hpid & _ & Hft & _).
  split; [apply Hpid | apply Hft]; right; reflexivity.
Defined.

(** ** Patterns extracted from search results *)

Lemma pattern_of_shape (pattern_type : string) (result pattern : json) :
  ClientSearch.pattern_of pattern_type result = Value (Some pattern) ->
  exists m md,
    pattern = JDict m
    /\ m !! "type" = Some (JStr pattern_type)
    /\ is_Some (m !! "source")
    /\ is_Some (m !! "content")
    /\ m !! "metadata" = Some (JDict md).
Proof.
  unfold ClientSearch.pattern_of.
  destruct (match result with JList (first :: _) => first | _ => result end)
    as [| | | | |d]; try discriminate.
  destruct (default (JDict ∅) (d !! "metadata")) as [| | | | |md] eqn:Hmd; try discriminate.
  intros [= <-]. eexists _, md. split; [reflexivity|].
  repeat split; simplify_map_eq; eauto.
Qed.

Lemma collect_patterns_inv (pattern_type : string) (results : list json) :
  forall acc out,
    ClientSearch.collect_patterns pattern_type results acc = Value out ->
    length out <= length acc + length results
    /\ forall p, In p out ->
         In p acc \/ exists r, In r results
                               /\ ClientSearch.pattern_of pattern_type r = Value (Some p).
Proof.
  induction results as [|r results IH]; intros acc out H; cbn in H.
  - injection H as <-. split; [cbn; lia | tauto].
  - destruct (ClientSearch.pattern_of pattern_type r) as [e|[p|]] eqn:Hr; [discriminate| |].
    + destruct (IH _ _ H) as [Hlen Hin]. rewrite length_app in Hlen. cbn in Hlen.
      split; [cbn; lia|]. intros q Hq.
      destruct (Hin q Hq) as [Hacc | (r' & Hr' & Hp)].
      * apply in_app_or in Hacc as [Hacc | [<- | []]]; [tauto|].
        right. exists r. split; [cbn; tauto | exact Hr].
      * right. exists r'. split; [cbn; tauto | exact Hp].
    + destruct (IH _ _ H) as [Hlen Hin]. split; [cbn; lia|]. intros q Hq.
      destruct (Hin q Hq) as [Hacc | (r' & Hr' & Hp)]; [tauto|].
      right. exists r'. split; [cbn; tauto | exact Hp].
Qed.

Lemma slice_to_incl {A : Type} (xs : list A) (limit : Z) (x : A) :
  In x (slice_to xs limit) -> In x xs.
Proof.
  assert (Htake : forall n, In x (take n xs) -> In x xs).
  { intros n H. rewrite <- (take_drop n xs). apply in_or_app. now left. }
  unfold slice_to. destruct (0 <=? limit)%Z; apply Htake.
Qed.

(** X16: what [RAGClient.extract_patterns] returns when it returns.  Every
    pattern is an object with the requested [type], a [source], a [content]
    and the document's [metadata] object; for a limit that is not negative
    there are at most [limit] of them.  A result given as a pair (document,
    score) yields the same pattern as the bare document, and when the search
    fails there are no patterns and no exception. *)
Theorem extracted_patterns_shape :
  forall (svc : Service) (cfg pattern_type : string) (limit : Z)
         (project_id : option string),
    (forall patterns,
        ClientSearch.extract_patterns svc cfg pattern_type limit project_id = Value patterns ->
        ((0 <= limit)%Z -> length patterns <= Z.to_nat limit)
        /\ forall p, In p patterns ->
             exists m md,
               p = JDict m
               /\ m !! "type" = Some (JStr pattern_type)
               /\ is_Some (m !! "source")
               /\ is_Some (m !! "content")
               /\ m !! "metadata" = Some (JDict md))
    /\ (forall d rest,
          ClientSearch.pattern_of pattern_type (JList (JDict d :: rest))
          = ClientSearch.pattern_of pattern_type (JDict d))
    /\ (ClientSearch.search svc cfg (pattern_type +:+ " patterns") SEMANTIC limit
          None None project_id = JList [] ->
        ClientSearch.extract_patterns svc cfg pattern_type limit project_id = Value []).
Proof.
  intros svc cfg pattern_type limit project_id. split; [|split].
  - intros patterns H. unfold ClientSearch.extract_patterns in H.
    destruct (ClientSearch.iterate _) as [e|l]; [discriminate|].
    destruct (ClientSearch.collect_patterns pattern_type l []) as [e|out] eqn:Hout;
      [discriminate|].
    injection H as <-.
    destruct (collect_patterns_inv _ _ _ _ Hout) as [_ Hin]. split.
    + intros Hlimit. unfold slice_to.
      destruct (Z.leb_spec 0 limit) as [_|Hneg]; [|lia].
      rewrite length_take. lia.
    + intros p Hp. apply slice_to_incl in Hp.
      destruct (Hin p Hp) as [[] | (r & _ & Hr)].
      exact (pattern_of_shape _ _ _ Hr).
  - reflexivity.
  - intros Hsearch. unfold ClientSearch.extract_patterns. rewrite Hsearch. cbn.
    unfold slice_to. destruct (0 <=? limit)%Z; now rewrite take_nil.
Qed.

Lemma extracted_patterns_shape_witness :
  ClientSearch.extract_patterns (mkService (fun _ => Failed) Failed (fun _ => Failed))
    "default" "architectural" 10 None = Value [].
Proof.
  apply (proj2 (proj2 (extracted_patterns_shape
                         (mkService (fun _ => Failed) Failed (fun _ => Failed))
                         "default" "architectural" 10 None))).
  reflexivity.
Defined.

Lemma collect_patterns_raises (pattern_type : string) (results : list json) (r : json) :
  In r results ->
  ClientSearch.pattern_of pattern_type r = Raise AttributeError ->
  forall acc, ClientSearch.collect_patterns pattern_type results acc = Raise AttributeError.
Proof.
  intros Hin Hr. induction results as [|r' results IH]; intros acc; [contradiction|].
  cbn [ClientSearch.collect_patterns].
  destruct (ClientSearch.pattern_of pattern_type r') as [e|[p|]] eqn:Hr'.
  - f_equal. unfold ClientSearch.pattern_of in Hr'.
    destruct (match r' with JList (first :: _) => first | _ => r' end)
      as [| | | | |d]; try discriminate.
    destruct (default (JDict ∅) (d !! "metadata")); congruence.
  - destruct Hin as [-> | Hin]; [congruence | now apply IH].
  - destruct Hin as [-> | Hin]; [congruence | now apply IH].
Qed.

(** X17: [RAGClient.extract_patterns] catches nothing of its own.  If some
    result document, bare or as the first element of a pair, has a
    [metadata] entry that is not an object (a JSON null, say), the call
    raises [AttributeError]; and if the search answers 200 with a JSON null,
    boolean or number, the call raises [TypeError]. *)
Theorem extract_patterns_raises :
  forall (svc : Service) (cfg pattern_type : string) (limit : Z)
         (project_id : option string),
    let results :=
      ClientSearch.search svc cfg (pattern_type +:+ " patterns") SEMANTIC limit
        None None project_id in
    (forall l r d j,
        results = JList l ->
        In r l ->
        (r = JDict d \/ exists rest, r = JList (JDict d :: rest)) ->
        d !! "metadata" = Some j ->
        (forall md, j <> JDict md) ->
        ClientSearch.extract_patterns svc cfg pattern_type limit project_id
        = Raise AttributeError)
    /\ (results = JNull \/ (exists b, results = JBool b) \/ (exists n, results = JNum n) ->
        ClientSearch.extract_patterns svc cfg pattern_type limit project_id
        = Raise TypeError).
Proof.
  intros svc cfg pattern_type limit project_id results. split.
  - intros l r d j Hres Hin Hshape Hmeta Hnot.
    unfold ClientSearch.extract_patterns. fold results. rewrite Hres. cbn [ClientSearch.iterate].
    rewrite (collect_patterns_raises pattern_type l r Hin); [reflexivity|].
    assert (Hd : ClientSearch.pattern_of pattern_type (JDict d) = Raise AttributeError).
    { unfold ClientSearch.pattern_of. rewrite Hmeta. cbn.
      destruct j; try reflexivity. now destruct (Hnot m). }
    destruct Hshape as [-> | [rest ->]]; exact Hd.
  - intros H. unfold ClientSearch.extract_patterns. fold results.
    destruct H as [-> | [[b ->] | [n ->]]]; reflexivity.
Qed.

Lemma extract_patterns_raises_witness :
  ClientSearch.extract_patterns
    (mkService (fun _ => Body 200 (Some (JList [JDict (<["metadata" := JNull]> ∅)])))
               Failed (fun _ => Failed))
    "default" "architectural" 10 None
  = Raise AttributeError.
Proof.
  apply (proj1 (extract_patterns_raises
                  (mkService (fun _ => Body 200 (Some (JList [JDict (<["metadata" := JNull]> ∅)])))
                             Failed (fun _ => Failed))
                  "default" "architectural" 10 None)
           [JDict (<["metadata" := JNull]> ∅)]
           (JDict (<["metadata" := JNull]> ∅))
           (<["metadata" := JNull]> ∅) JNull).
  - reflexivity.
  - cbn. tauto.
  - left. reflexivity.
  - reflexivity.
  - intros md H. discriminate H.
Defined.

(** ** Searching with [SuperClaudeRAGClient] *)



(** ** The [index] command *)




(** ** Indexing several paths *)

(** Merging the counts of one run into the totals adds them up key by key. *)
Lemma merge_by_type_lookup (total by_type : gmap string nat) (k : string) :
  default 0 (CustomApplicationBridge.merge_by_type total by_type !! k)
  = default 0 (total !! k) + default 0 (by_type !! k).
Proof.
  unfold CustomApplicationBridge.merge_by_type.
  apply (map_fold_weak_ind
           (fun (r : gmap string nat) (m : gmap string nat) =>
              default 0 (r !! k) = default 0 (total !! k) + default 0 (m !! k))).
  - rewrite lookup_empty. cbn. lia.
  - intros i x m r Hi IH.
    destruct (decide (i = k)) as [->|Hne].
    + rewrite !lookup_insert_eq. cbn. rewrite Hi in IH. cbn in IH. lia.
    + rewrite !lookup_insert_ne by exact Hne. exact IH.
Qed.

(** The statistics that [RAGClient.index_project] returns add up. *)
Lemma index_project_stats_add_up (w : World) (pid path : string)
    (c d g t recursive : bool) (stats : IndexingStats) (message : option string) :
  RAGClient.index_project w pid path c d g t recursive = StatsDict stats message ->
  successful stats + failed stats = total_files stats.
Proof.
  unfold RAGClient.index_project, DocumentProcessor.process_project.
  destruct (w_resolve w (Path path)) as [e|dir]; [discriminate|].
  destruct (w_exists w dir) as [e|[|]]; [discriminate| |discriminate].
  destruct (DocumentProcessor.collect_files w dir c d g t recursive) as [|p files].
  - intros [= <- _]. reflexivity.
  - intros [= <- _]. unfold DocumentProcessor.run_files.
    destruct (process_files_counts w pid (p :: files) (mkStats (length (p :: files)) 0 0 ∅))
      as [Ht Hs].
    cbn [total_files successful failed] in Ht, Hs. lia.
Qed.

Lemma setup_project_fold (w : World) (pid : string) (c d g t recursive : bool)
    (paths : list string) :
  forall T0 : CustomApplicationBridge.TotalStats,
    let indexed (path : string) :=
      match RAGClient.index_project w pid path c d g t recursive with
      | StatsDict _ _ => true
      | _ => false
      end in
    let T := fold_left (CustomApplicationBridge.add_path w pid c d g t recursive) paths T0 in
    CustomApplicationBridge.paths_indexed T
    = CustomApplicationBridge.paths_indexed T0 ++ List.filter indexed paths
    /\ CustomApplicationBridge.agg_total_files T + length (List.filter (fun p => negb (indexed p)) paths)
       + (CustomApplicationBridge.agg_successful T0 + CustomApplicationBridge.agg_failed T0)
       = CustomApplicationBridge.agg_successful T + CustomApplicationBridge.agg_failed T
         + CustomApplicationBridge.agg_total_files T0
    /\ forall k : string,
         default 0 (CustomApplicationBridge.agg_by_type T !! k)
         = default 0 (CustomApplicationBridge.agg_by_type T0 !! k)
           + list_sum
               (map (fun path =>
                       match RAGClient.index_project w pid path c d g t recursive with
                       | StatsDict stats _ => default 0 (by_type stats !! k)
                       | _ => 0
                       end) paths).
Proof.
  induction paths as [|path paths IH]; intros T0 indexed T.
  - subst T. cbn. rewrite app_nil_r. repeat split; lia.
  - subst T indexed. cbn [fold_left List.filter map list_sum].
    destruct (IH (CustomApplicationBridge.add_path w pid c d g t recursive T0 path))
      as (Hp & Hc & Hk).
    set (T1 := CustomApplicationBridge.add_path w pid c d g t recursive T0 path) in *.
    set (T := fold_left _ paths T1) in *.
    assert (Hstep :
      match RAGClient.index_project w pid path c d g t recursive with
      | StatsDict stats _ =>
          CustomApplicationBridge.paths_indexed T1
          = CustomApplicationBridge.paths_indexed T0 ++ [path]
          /\ CustomApplicationBridge.agg_total_files T1
             = CustomApplicationBridge.agg_total_files T0 + total_files stats
          /\ CustomApplicationBridge.agg_successful T1 + CustomApplicationBridge.agg_failed T1
             = CustomApplicationBridge.agg_successful T0 + CustomApplicationBridge.agg_failed T0
               + total_files stats
          /\ forall k, default 0 (CustomApplicationBridge.agg_by_type T1 !! k)
                       = default 0 (CustomApplicationBridge.agg_by_type T0 !! k)
                         + default 0 (by_type stats !! k)
      | _ =>
          CustomApplicationBridge.paths_indexed T1 = CustomApplicationBridge.paths_indexed T0
          /\ CustomApplicationBridge.agg_total_files T1
             = CustomApplicationBridge.agg_total_files T0
          /\ CustomApplicationBridge.agg_successful T1 + CustomApplicationBridge.agg_failed T1
             = CustomApplicationBridge.agg_successful T0 + CustomApplicationBridge.agg_failed T0 + 1
          /\ forall k, CustomApplicationBridge.agg_by_type T1 !! k
                       = CustomApplicationBridge.agg_by_type T0 !! k
      end).
    { subst T1. unfold CustomApplicationBridge.add_path.
      destruct (RAGClient.index_project w pid path c d g t recursive)
        as [err|stats message|err n1 n2 n3] eqn:Hrun; cbn.
      - repeat split; lia.
      - pose proof (index_project_stats_add_up _ _ _ _ _ _ _ _ _ _ Hrun) as Hadd.
        split; [reflexivity|]. split; [reflexivity|]. split; [lia|].
        intros k. apply merge_by_type_lookup.
      - repeat split; lia. }
    clearbody T T1.
    assert (Hsum : forall a l, list_sum (a :: l) = a + list_sum l) by reflexivity.
    destruct (RAGClient.index_project w pid path c d g t recursive)
      as [err|stats message|err n1 n2 n3];
      destruct Hstep as (H1 & H2 & H3 & H4); cbn [negb length].
    + rewrite H1 in Hp. split; [exact Hp|]. split; [lia|].
      intros k. rewrite Hsum, Hk, H4. lia.
    + rewrite H1, <- app_assoc in Hp. split; [exact Hp|]. split; [lia|].
      intros k. rewrite Hsum, Hk, H4. lia.
    + rewrite H1 in Hp. split; [exact Hp|]. split; [lia|].
      intros k. rewrite Hsum, Hk, H4. lia.
Qed.

Lemma filter_split_length {A : Type} (f : A -> bool) (l : list A) :
  length (List.filter f l) + length (List.filter (fun a => negb (f a)) l) = length l.
Proof.
  induction l as [|a l IH]; [reflexivity|].
  cbn [List.filter]. destruct (f a); cbn [negb length]; lia.
Qed.

(** X20: what [setup_project] adds up over several paths.  The paths
    listed as indexed are those whose run returned statistics, in order;
    each other path counts as one failure, so [successful + failed] exceeds
    [total_files] by the number of paths that could not be indexed; and
    [by_type] has, key by key, the sum of the counts of the runs. *)
Theorem setup_project_totals :
  forall (w : World) (pid : string) (paths : list string) (c d g t recursive : bool),
    let indexed (path : string) :=
      match RAGClient.index_project w pid path c d g t recursive with
      | StatsDict _ _ => true
      | _ => false
      end in
    let T := CustomApplicationBridge.setup_project w pid paths c d g t recursive in
    CustomApplicationBridge.paths_indexed T = List.filter indexed paths
    /\ CustomApplicationBridge.agg_successful T + CustomApplicationBridge.agg_failed T
       = CustomApplicationBridge.agg_total_files T
         + (length paths - length (CustomApplicationBridge.paths_indexed T))
    /\ forall k : string,
         default 0 (CustomApplicationBridge.agg_by_type T !! k)
         = list_sum
             (map (fun path =>
                     match RAGClient.index_project w pid path c d g t recursive with
                     | StatsDict stats _ => default 0 (by_type stats !! k)
                     | _ => 0
                     end) paths).
Proof.
  intros w pid paths c d g t recursive indexed T.
  pose proof (filter_split_length indexed paths) as Hsplit.
  destruct (setup_project_fold w pid c d g t recursive paths
              (CustomApplicationBridge.mkTotal 0 0 0 ∅ [])) as (Hp & Hc & Hk).
  change (fold_left (CustomApplicationBridge.add_path w pid c d g t recursive) paths
            (CustomApplicationBridge.mkTotal 0 0 0 ∅ [])) with T in Hp, Hc, Hk.
  cbn [CustomApplicationBridge.paths_indexed CustomApplicationBridge.agg_total_files
       CustomApplicationBridge.agg_successful CustomApplicationBridge.agg_failed
       CustomApplicationBridge.agg_by_type app] in Hp, Hc, Hk.
  change (List.filter _ paths) with (List.filter indexed paths) in Hp.
  change (length (List.filter _ paths))
    with (length (List.filter (fun p => negb (indexed p)) paths)) in Hc.
  split; [exact Hp|]. split.
  - rewrite Hp. lia.
  - intros k. rewrite Hk, lookup_empty. reflexivity.
Qed.

(** ** Extensions and the deny-lists *)

(** The name of a path ends with its suffix. *)
Lemma drop_is_end (i : nat) (s : string) : exists pre, s = pre +:+ PyStr.drop i s.
Proof.
  revert s. induction i as [|i IH]; intros s.
  - exists "". reflexivity.
  - destruct s as [|c s]; [exists ""; reflexivity|].
    destruct (IH s) as [pre Hpre]. exists (String c pre).
    change (PyStr.drop (S i) (String c s)) with (PyStr.drop i s).
    change (String c pre +:+ PyStr.drop i s) with (String c (pre +:+ PyStr.drop i s)).
    now rewrite <- Hpre.
Qed.

Lemma str_ends_with_suffix (p : PurePath) :
  suffix p <> "" -> exists pre, str p = pre +:+ suffix p.
Proof.
  intros Hsuf.
  assert (Htail : tail p <> []).
  { intros E. apply Hsuf. unfold suffix, name. rewrite E. reflexivity. }
  destruct (str_ends_with_name p Htail) as [pre Hstr].
  assert (Hname : exists pre', name p = pre' +:+ suffix p).
  { unfold suffix in *. destruct (PyStr.rfind "." (name p)) as [i|]; [|congruence].
    destruct ((0 <? i) && (i <? String.length (name p) - 1)); [|congruence].
    apply drop_is_end. }
  destruct Hname as [pre' Hname]. exists (pre +:+ pre').
  rewrite Hstr, Hname at 1. now rewrite string_app_assoc.
Qed.

(** X22: the extension tables are looked up with the lower-cased
    extension, the deny-lists are matched against the path string as it is.
    So a file whose extension is spelled [.env] is never indexed, although
    [.env] is in the configuration table of both classifiers: its path
    string contains [env], which is on both deny-lists.  A file whose
    extension is [.env] in another spelling, such as [.ENV], is a
    configuration file like any other: when it has no test pattern and
    passes the exclusions, it is indexed as soon as configuration files are
    asked for. *)
Theorem env_extension_and_case :
  (forall (w : World) (p : PurePath) (c d g t : bool),
      suffix p = ".env" ->
      DocumentProcessor._should_include_file w p c d g t = false)
  /\ (forall (fp : string) (patterns : gset string),
      suffix (Path fp) = ".env" ->
      _should_process_file fp patterns = false)
  /\ (forall (w : World) (p : PurePath) (c d t : bool) (st : stat_result),
      PyStr.lower (suffix p) = ".env" ->
      (forall pat, In pat DocumentProcessor.test_patterns ->
         forall pre post, PyStr.lower (str p) <> pre +:+ pat +:+ post) ->
      (forall token, In token DocumentProcessor.exclusions ->
         forall pre post, str p <> pre +:+ token +:+ post) ->
      w_stat w p = Some st ->
      (st_size st <= 10 * 1024 * 1024)%Z ->
      DocumentProcessor._classify_document p = CONFIGURATION
      /\ DocumentProcessor._should_include_file w p c d true t = true)
  /\ (forall (fp : string) (patterns : gset string),
      PyStr.lower (suffix (Path fp)) = ".env" ->
      (forall pat, In pat test_patterns ->
         forall pre post, PyStr.lower (str (Path fp)) <> pre +:+ pat +:+ post) ->
      (forall part, In part (parts (Path fp)) -> PyStr.startswith "." part = false) ->
      (forall token, In token skip_dirs ->
         forall pre post, str (Path fp) <> pre +:+ token +:+ post) ->
      "configs" ∈ patterns ->
      _get_file_type fp = CONFIGURATION
      /\ _should_process_file fp patterns = true).
Proof.
  assert (Hstr : forall p, suffix p = ".env" -> exists pre, str p = pre +:+ "." +:+ "env" +:+ "").
  { intros p Hsuf. destruct (str_ends_with_suffix p) as [pre Hpre]; [now rewrite Hsuf|].
    exists pre. now rewrite Hpre, Hsuf. }
  split; [|split; [|split]].
  - intros w p c d g t Hsuf. destruct (Hstr p Hsuf) as [pre Hpre].
    apply excluded_by_substring. apply any_in_intro with "env"; [cbn; tauto|].
    rewrite Hpre, <- string_app_assoc. apply contains_app.
  - intros fp patterns Hsuf. destruct (Hstr (Path fp) Hsuf) as [pre Hpre].
    apply skipped_by_substring. apply any_in_intro with "env"; [cbn; tauto|].
    rewrite Hpre, <- string_app_assoc. apply contains_app.
  - intros w p c d t st Hext Htest Hdeny Hst Hsize.
    apply any_in_false_iff in Htest, Hdeny.
    assert (Hty : DocumentProcessor._classify_document p = CONFIGURATION).
    { unfold DocumentProcessor._classify_document. rewrite Htest, Hext. reflexivity. }
    split; [exact Hty|].
    unfold DocumentProcessor._should_include_file. rewrite Hdeny, Hst, Hty.
    unfold DocumentProcessor.size_limit.
    destruct (Z.gtb_spec (st_size st) (10 * 1024 * 1024)); [lia | reflexivity].
  - intros fp patterns Hext Htest Hvisible Hskip Hconfigs.
    apply any_in_false_iff in Htest, Hskip.
    assert (Hty : _get_file_type fp = CONFIGURATION).
    { unfold _get_file_type. rewrite Htest, Hext. reflexivity. }
    split; [exact Hty|].
    unfold _should_process_file.
    assert (Hhidden : existsb (PyStr.startswith ".") (parts (Path fp)) = false).
    { destruct (existsb _ _) eqn:E; [|reflexivity].
      apply existsb_exists in E as (part & Hin & Hdot).
      now rewrite (Hvisible part Hin) in Hdot. }
    rewrite Hhidden, Hskip. cbn [andb].
    unfold _get_file_type. rewrite Path_str_Path. fold (_get_file_type fp). rewrite Hty.
    rewrite (bool_decide_eq_true_2 _ Hconfigs).
    destruct (bool_decide ("all" ∈ patterns)); [reflexivity|].
    cbn [DocumentType_eqb andb orb]. now rewrite !andb_false_r.
Qed.

Lemma env_extension_and_case_witness :
  DocumentProcessor._should_include_file quiet_world (Path "config/prod.env")
    true true true true = false
  /\ DocumentProcessor._should_include_file quiet_world (Path "config/prod.ENV")
       false false true false = true
  /\ _should_process_file "config/prod.ENV" {["configs"]} = true.
Proof.
  destruct env_extension_and_case as (Hlower & _ & Hupper & Hupper').
  split; [|split].
  - apply (Hlower quiet_world (Path "config/prod.env")). reflexivity.
  - apply (Hupper quiet_world (Path "config/prod.ENV") false false false (mkStat 0 0)).
    + reflexivity.
    + apply any_in_false_iff. vm_compute. reflexivity.
    + apply any_in_false_iff. vm_compute. reflexivity.
    + reflexivity.
    + cbn. lia.
  - apply (Hupper' "config/prod.ENV" {["configs"]}).
    + reflexivity.
    + apply any_in_false_iff. vm_compute. reflexivity.
    + intros part Hin. vm_compute in Hin.
      destruct Hin as [<- | [<- | []]]; reflexivity.
    + apply any_in_false_iff. vm_compute. reflexivity.
    + set_solver.
Defined.
